(** * rclcpp::Clock and rclcpp::JumpHandler (rclcpp/src/rclcpp/clock.cpp)

    A shallow embedding of clock.cpp.  The C++ code is effectful: it calls
    into the rcl C library, logs through rcutils, throws exceptions, and
    manages two kinds of heap objects through smart pointers
    (std::shared_ptr<rcl_clock_t> with the deleter [rcl_clock_deleter], and
    JumpHandler::SharedPtr with a deleter lambda that captures a
    std::weak_ptr<rcl_clock_t>).  The embedding threads an explicit [World]
    through a state-and-exception monad; every call that leaves clock.cpp
    (rcl, rcutils, user callbacks, operator delete) is recorded in a trace
    so that statements such as "called exactly once" can be made. *)

From Stdlib Require Import ZArith.
From stdpp Require Import gmap strings list.

Open Scope Z_scope.

(** ** The rcl interface (rcl/time.h, rcl/types.h, rcl/allocator.h)

    rcl is a separate C library; clock.cpp uses its types opaquely, so they
    are parameters of the development.  Of [rcl_clock_t] only the field
    [type] is read by clock.cpp; the rest of the struct is [rcl_clock_impl_t]. *)

Class RclTypes := {
  rcl_clock_type_t : Type;
  rcl_allocator_t : Type;
  rcl_time_jump_t : Type;
  rcl_jump_threshold_t : Type;
  rcl_clock_impl_t : Type;
}.

(** rcl_ret_t is a C int. *)
Definition rcl_ret_t : Type := Z.

(** rcl_time_point_value_t is a 64-bit signed nanosecond count. *)
Definition rcl_time_point_value_t : Type := Z.

(** Heap objects are named by identifiers that are never reused, so that an
    identifier denotes one object instance for the whole run. *)
Definition addr : Type := positive.

Record rcl_clock_t `{RclTypes} := Build_rcl_clock_t {
  type : rcl_clock_type_t;
  impl : rcl_clock_impl_t;
}.

Record rcl_time_point_t `{RclTypes} := Build_rcl_time_point_t {
  nanoseconds : rcl_time_point_value_t;
  clock_type : rcl_clock_type_t;
}.

(** The rcl functions called by clock.cpp.  A function taking
    [rcl_clock_t *] returns the struct as it leaves it; an out-parameter is
    an argument (its value before the call) and a component of the result
    (its value after the call).  [user_data] is the address of the
    JumpHandler; the callback argument of the two jump-callback functions
    is always [Clock::on_time_jump] and is left out. *)
Class RclBackend `{RclTypes} := {
  RCL_RET_OK : rcl_ret_t;
  rcl_clock_zero : rcl_clock_t;
  rcl_get_default_allocator : rcl_allocator_t;
  rcl_clock_init :
    rcl_clock_type_t -> rcl_clock_t -> rcl_allocator_t -> rcl_ret_t * rcl_clock_t;
  rcl_clock_fini : rcl_clock_t -> rcl_ret_t * rcl_clock_t;
  rcl_clock_get_now :
    rcl_clock_t -> rcl_time_point_value_t ->
    rcl_ret_t * rcl_time_point_value_t * rcl_clock_t;
  rcl_clock_valid : rcl_clock_t -> bool;
  rcl_is_enabled_ros_time_override :
    rcl_clock_t -> bool -> rcl_ret_t * bool * rcl_clock_t;
  rcl_clock_add_jump_callback :
    rcl_clock_t -> rcl_jump_threshold_t -> addr -> rcl_ret_t * rcl_clock_t;
  rcl_clock_remove_jump_callback :
    rcl_clock_t -> addr -> rcl_ret_t * rcl_clock_t;
}.

(** ** Data model *)

Section Model.
Context `{RT : RclTypes} `{RB : !RclBackend}.
(** State owned by user code, on which the registered callbacks act. *)
Context {U : Type}.

(** rclcpp::Time (rclcpp/time.hpp): a wrapper of [rcl_time_point_t]. *)
Record Time := Build_Time { rcl_time_ : rcl_time_point_t }.

(** Modelled from the spec: rclcpp::Time::Time(int32_t seconds, uint32_t
    nanoseconds, rcl_clock_type_t) is defined in time.cpp, which is not
    under src/.  The spec describes Time as the pair of a nanosecond count
    and a source-type tag; the count is seconds * 10^9 + nanoseconds. *)
Definition Time_ctor (seconds nsec : Z) (clock : rcl_clock_type_t) : Time :=
  {| rcl_time_ := {| nanoseconds := seconds * 1000000000 + nsec;
                     clock_type := clock |} |}.

(** Assignment through [&now.rcl_time_.nanoseconds]. *)
Definition set_nanoseconds (t : Time) (ns : rcl_time_point_value_t) : Time :=
  {| rcl_time_ := {| nanoseconds := ns;
                     clock_type := clock_type (rcl_time_ t) |} |}.

(** JumpHandler: an empty std::function is [None]. *)
Record JumpHandler := Build_JumpHandler {
  pre_callback : option (U -> U);
  post_callback : option (rcl_time_jump_t -> U -> U);
  notice_threshold : rcl_jump_threshold_t;
}.

(** JumpHandler::JumpHandler *)
Definition JumpHandler_ctor
    (pre_callback : option (U -> U))
    (post_callback : option (rcl_time_jump_t -> U -> U))
    (threshold : rcl_jump_threshold_t) : JumpHandler :=
  {| pre_callback := pre_callback;
     post_callback := post_callback;
     notice_threshold := threshold |}.

(** Clock: the allocator and the shared pointer to the rcl clock. *)
Record Clock := Build_Clock {
  allocator_ : rcl_allocator_t;
  rcl_clock_ : addr;
}.

(** What a JumpHandler object is owned by: the std::unique_ptr local of
    [create_jump_callback], or the control block of the returned
    JumpHandler::SharedPtr, which holds the strong count and the deleter
    lambda, that is, its captured [weak_clock]. *)
Variant owner :=
  | Unique
  | Shared (strong : positive) (weak_clock : addr).

Record handler_cell := Build_handler_cell {
  h_obj : JumpHandler;
  h_owner : owner;
}.

(** An rcl_clock_t managed by std::shared_ptr: the strong count and the
    object.  The cell is removed when the deleter has run; a weak pointer is
    an address, and it has expired when the address has no cell. *)
Record clock_cell := Build_clock_cell {
  c_strong : positive;
  c_obj : rcl_clock_t;
}.

(** Exceptions. *)
Variant exn :=
  | RCLError (ret : rcl_ret_t) (prefix : string)
  | std_bad_alloc
  | std_bad_function_call.

(** Everything that leaves clock.cpp. *)
Variant event :=
  | EvClockInit (clock : addr) (ty : rcl_clock_type_t) (ret : rcl_ret_t)
  | EvClockFini (clock : addr) (ret : rcl_ret_t)
  | EvClockGetNow (clock : addr) (ret : rcl_ret_t)
  | EvClockValid (clock : addr) (valid : bool)
  | EvIsEnabledRosTimeOverride (clock : addr) (ret : rcl_ret_t)
  | EvAddJumpCallback (clock : addr) (threshold : rcl_jump_threshold_t)
      (user_data : addr) (ret : rcl_ret_t)
  | EvRemoveJumpCallback (clock : addr) (user_data : addr) (ret : rcl_ret_t)
  | EvLogError (msg : string)
  | EvNewClock (clock : addr)
  | EvDeleteClock (clock : addr)
  | EvNewHandler (handler : addr)
  | EvDeleteHandler (handler : addr)
  | EvPreCallback (handler : addr)
  | EvPostCallback (handler : addr) (time_jump : rcl_time_jump_t).

Record World := Build_World {
  clocks : gmap addr clock_cell;
  handlers : gmap addr handler_cell;
  next_clock : addr;
  next_handler : addr;
  trace : list event;
  user : U;
}.

Definition set_clocks (f : gmap addr clock_cell -> gmap addr clock_cell)
    (w : World) : World :=
  {| clocks := f (clocks w); handlers := handlers w;
     next_clock := next_clock w; next_handler := next_handler w;
     trace := trace w; user := user w |}.

Definition set_handlers (f : gmap addr handler_cell -> gmap addr handler_cell)
    (w : World) : World :=
  {| clocks := clocks w; handlers := f (handlers w);
     next_clock := next_clock w; next_handler := next_handler w;
     trace := trace w; user := user w |}.

Definition set_next_clock (a : addr) (w : World) : World :=
  {| clocks := clocks w; handlers := handlers w;
     next_clock := a; next_handler := next_handler w;
     trace := trace w; user := user w |}.

Definition set_next_handler (a : addr) (w : World) : World :=
  {| clocks := clocks w; handlers := handlers w;
     next_clock := next_clock w; next_handler := a;
     trace := trace w; user := user w |}.

Definition add_events (evs : list event) (w : World) : World :=
  {| clocks := clocks w; handlers := handlers w;
     next_clock := next_clock w; next_handler := next_handler w;
     trace := trace w ++ evs; user := user w |}.

Definition set_user (f : U -> U) (w : World) : World :=
  {| clocks := clocks w; handlers := handlers w;
     next_clock := next_clock w; next_handler := next_handler w;
     trace := trace w; user := f (user w) |}.

(** ** The monad: state, C++ exceptions, undefined behaviour *)

Variant outcome (A : Type) :=
  | Returned (a : A)
  | Thrown (e : exn)
  | Undefined.
Arguments Returned {A} a.
Arguments Thrown {A} e.
Arguments Undefined {A}.

Definition M (A : Type) : Type := World -> outcome A * World.

Definition ret {A} (a : A) : M A := fun w => (Returned a, w).

Definition bind {A B} (m : M A) (k : A -> M B) : M B :=
  fun w =>
    match m w with
    | (Returned a, w') => k a w'
    | (Thrown e, w') => (Thrown e, w')
    | (Undefined, w') => (Undefined, w')
    end.

Notation "x <- m ;; k" := (bind m (fun x => k))
  (at level 100, m at next level, k at level 200, right associativity).
Notation "m ;; k" := (bind m (fun _ => k))
  (at level 100, k at level 200, right associativity).

Definition throw {A} (e : exn) : M A := fun w => (Thrown e, w).

Definition undefined {A} : M A := fun w => (Undefined, w).

Definition modify (f : World -> World) : M unit := fun w => (Returned tt, f w).

Definition emit (e : event) : M unit := modify (add_events [e]).

(** Stack unwinding: when [body] throws, the destructor [cleanup] of a local
    (or of an already constructed member) runs before the exception leaves
    the function.  A destructor that throws terminates the program. *)
Definition on_unwind {A} (body : M A) (cleanup : M unit) : M A :=
  fun w =>
    match body w with
    | (Thrown e, w') =>
        match cleanup w' with
        | (Returned _, w'') => (Thrown e, w'')
        | (_, w'') => (Undefined, w'')
        end
    | r => r
    end.

(** ** Heap primitives *)

(** RCUTILS_LOG_ERROR *)
Definition RCUTILS_LOG_ERROR (msg : string) : M unit := emit (EvLogError msg).

(** Modelled from the spec: exceptions::throw_from_rcl_error is defined in
    exceptions.cpp, which is not under src/.  By the spec, each error
    surfaced to a caller carries the underlying backend status code and a
    message; the function never returns. *)
Definition throw_from_rcl_error {A} (ret : rcl_ret_t) (prefix : string) : M A :=
  throw (RCLError ret prefix).

(** [*p] for [p] pointing to an rcl_clock_t; a dangling pointer is undefined
    behaviour. *)
Definition deref_clock (p : addr) : M rcl_clock_t :=
  fun w =>
    match clocks w !! p with
    | Some cell => (Returned (c_obj cell), w)
    | None => (Undefined, w)
    end.

Definition store_clock (p : addr) (obj : rcl_clock_t) : M unit :=
  fun w =>
    match clocks w !! p with
    | Some cell =>
        (Returned tt,
         set_clocks (insert p {| c_strong := c_strong cell; c_obj := obj |}) w)
    | None => (Undefined, w)
    end.

(** [delete rcl_clock] *)
Definition delete_clock (p : addr) : M unit :=
  fun w =>
    match clocks w !! p with
    | Some _ => (Returned tt, add_events [EvDeleteClock p] (set_clocks (delete p) w))
    | None => (Undefined, w)
    end.

(** [handler->...] for [handler] pointing to a JumpHandler. *)
Definition deref_handler (p : addr) : M (JumpHandler) :=
  fun w =>
    match handlers w !! p with
    | Some cell => (Returned (h_obj cell), w)
    | None => (Undefined, w)
    end.

(** [new JumpHandler(...)], owned by a std::unique_ptr.  Allocation is taken
    to succeed. *)
Definition new_JumpHandler (h : JumpHandler) : M addr :=
  fun w =>
    let p := next_handler w in
    (Returned p,
     add_events [EvNewHandler p]
       (set_next_handler (Pos.succ p)
          (set_handlers (insert p {| h_obj := h; h_owner := Unique |}) w))).

(** [delete handler] *)
Definition delete_handler (p : addr) : M unit :=
  fun w =>
    match handlers w !! p with
    | Some _ =>
        (Returned tt, add_events [EvDeleteHandler p] (set_handlers (delete p) w))
    | None => (Undefined, w)
    end.

(** ** Calls into rcl *)

Definition call_rcl_clock_init (clock_type : rcl_clock_type_t) (clock : addr)
    (allocator : rcl_allocator_t) : M rcl_ret_t :=
  obj <- deref_clock clock;;
  let '(r, obj') := rcl_clock_init clock_type obj allocator in
  store_clock clock obj';;
  emit (EvClockInit clock clock_type r);;
  ret r.

Definition call_rcl_clock_fini (clock : addr) : M rcl_ret_t :=
  obj <- deref_clock clock;;
  let '(r, obj') := rcl_clock_fini obj in
  store_clock clock obj';;
  emit (EvClockFini clock r);;
  ret r.

Definition call_rcl_clock_get_now (clock : addr)
    (time_point_value : rcl_time_point_value_t)
    : M (rcl_ret_t * rcl_time_point_value_t) :=
  obj <- deref_clock clock;;
  let '(r, v, obj') := rcl_clock_get_now obj time_point_value in
  store_clock clock obj';;
  emit (EvClockGetNow clock r);;
  ret (r, v).

Definition call_rcl_clock_valid (clock : addr) : M bool :=
  obj <- deref_clock clock;;
  let b := rcl_clock_valid obj in
  emit (EvClockValid clock b);;
  ret b.

Definition call_rcl_is_enabled_ros_time_override (clock : addr)
    (is_enabled : bool) : M (rcl_ret_t * bool) :=
  obj <- deref_clock clock;;
  let '(r, b, obj') := rcl_is_enabled_ros_time_override obj is_enabled in
  store_clock clock obj';;
  emit (EvIsEnabledRosTimeOverride clock r);;
  ret (r, b).

Definition call_rcl_clock_add_jump_callback (clock : addr)
    (threshold : rcl_jump_threshold_t) (user_data : addr) : M rcl_ret_t :=
  obj <- deref_clock clock;;
  let '(r, obj') := rcl_clock_add_jump_callback obj threshold user_data in
  store_clock clock obj';;
  emit (EvAddJumpCallback clock threshold user_data r);;
  ret r.

Definition call_rcl_clock_remove_jump_callback (clock : addr)
    (user_data : addr) : M rcl_ret_t :=
  obj <- deref_clock clock;;
  let '(r, obj') := rcl_clock_remove_jump_callback obj user_data in
  store_clock clock obj';;
  emit (EvRemoveJumpCallback clock user_data r);;
  ret r.

(** ** clock.cpp *)

(** rcl_clock_deleter *)
Definition rcl_clock_deleter (rcl_clock : addr) : M unit :=
  r <- call_rcl_clock_fini rcl_clock;;
  (if decide (r = RCL_RET_OK) then ret tt
   else RCUTILS_LOG_ERROR "Failed to fini rcl clock.");;
  delete_clock rcl_clock.

(** [std::shared_ptr<rcl_clock_t>(clock_unique_ptr.release(),
    rcl_clock_deleter)] applied to [std::make_unique<rcl_clock_t>()]: a
    value-initialised rcl_clock_t with one strong reference. *)
Definition new_shared_clock : M addr :=
  fun w =>
    let p := next_clock w in
    (Returned p,
     add_events [EvNewClock p]
       (set_next_clock (Pos.succ p)
          (set_clocks
             (insert p {| c_strong := 1%positive; c_obj := rcl_clock_zero |}) w))).

(** Copy of a std::shared_ptr<rcl_clock_t>. *)
Definition shared_clock_copy (p : addr) : M unit :=
  fun w =>
    match clocks w !! p with
    | Some cell =>
        (Returned tt,
         set_clocks
           (insert p {| c_strong := Pos.succ (c_strong cell);
                        c_obj := c_obj cell |}) w)
    | None => (Undefined, w)
    end.

(** Destruction of a std::shared_ptr<rcl_clock_t>: the deleter runs when the
    last strong reference goes away. *)
Definition shared_clock_release (p : addr) : M unit :=
  fun w =>
    match clocks w !! p with
    | Some cell =>
        if decide (c_strong cell = 1%positive) then rcl_clock_deleter p w
        else
          (Returned tt,
           set_clocks
             (insert p {| c_strong := Pos.pred (c_strong cell);
                          c_obj := c_obj cell |}) w)
    | None => (Undefined, w)
    end.

(** [weak_clock.lock()]: an empty pointer when the clock has been destroyed,
    a new strong reference otherwise. *)
Definition weak_clock_lock (weak_clock : addr) : M (option addr) :=
  fun w =>
    match clocks w !! weak_clock with
    | Some cell =>
        (Returned (Some weak_clock),
         set_clocks
           (insert weak_clock {| c_strong := Pos.succ (c_strong cell);
                                 c_obj := c_obj cell |}) w)
    | None => (Returned None, w)
    end.

(** Clock::Clock.  When the body throws, the member [rcl_clock_], already
    constructed, is destroyed. *)
Definition Clock_ctor (clock_type : rcl_clock_type_t) : M Clock :=
  let allocator_ := rcl_get_default_allocator in
  rcl_clock_ <- new_shared_clock;;
  on_unwind
    (r <- call_rcl_clock_init clock_type rcl_clock_ allocator_;;
     if decide (r = RCL_RET_OK) then ret tt
     else throw_from_rcl_error r "could not get current time stamp")
    (shared_clock_release rcl_clock_);;
  ret {| allocator_ := allocator_; rcl_clock_ := rcl_clock_ |}.

(** The implicit copy constructor of Clock. *)
Definition Clock_copy (c : Clock) : M Clock :=
  shared_clock_copy (rcl_clock_ c);;
  ret {| allocator_ := allocator_ c; rcl_clock_ := rcl_clock_ c |}.

(** Clock::~Clock: the body is empty, the member [rcl_clock_] is destroyed. *)
Definition Clock_dtor (c : Clock) : M unit :=
  shared_clock_release (rcl_clock_ c).

(** Clock::now *)
Definition Clock_now (c : Clock) : M Time :=
  obj <- deref_clock (rcl_clock_ c);;
  let now := Time_ctor 0 0 (type obj) in
  rv <- call_rcl_clock_get_now (rcl_clock_ c) (nanoseconds (rcl_time_ now));;
  let '(r, ns) := rv in
  let now := set_nanoseconds now ns in
  if decide (r = RCL_RET_OK) then ret now
  else throw_from_rcl_error r "could not get current time stamp".

(** Clock::ros_time_is_active *)
Definition Clock_ros_time_is_active (c : Clock) : M bool :=
  valid <- call_rcl_clock_valid (rcl_clock_ c);;
  if negb valid then
    RCUTILS_LOG_ERROR "ROS time not valid!";;
    ret false
  else
    let is_enabled := false in
    rv <- call_rcl_is_enabled_ros_time_override (rcl_clock_ c) is_enabled;;
    let '(r, is_enabled) := rv in
    if decide (r = RCL_RET_OK) then ret is_enabled
    else throw_from_rcl_error r "Failed to check ros_time_override_status".

(** Clock::get_clock_handle *)
Definition Clock_get_clock_handle (c : Clock) : addr := rcl_clock_ c.

(** Clock::get_clock_type *)
Definition Clock_get_clock_type (c : Clock) : M rcl_clock_type_t :=
  obj <- deref_clock (rcl_clock_ c);;
  ret (type obj).

(** Invocation of the two std::function members; calling an empty
    std::function throws. *)
Definition invoke_pre_callback (handler : addr) (f : option (U -> U)) : M unit :=
  match f with
  | Some f => modify (fun w => add_events [EvPreCallback handler] (set_user f w))
  | None => throw std_bad_function_call
  end.

Definition invoke_post_callback (handler : addr)
    (g : option (rcl_time_jump_t -> U -> U))
    (time_jump : option rcl_time_jump_t) : M unit :=
  match time_jump with
  | Some j =>
      match g with
      | Some g =>
          modify (fun w => add_events [EvPostCallback handler j] (set_user (g j) w))
      | None => throw std_bad_function_call
      end
  | None => undefined
  end.

(** [if (f)] for a std::function [f]. *)
Definition nonempty {A} (f : option A) : bool :=
  match f with Some _ => true | None => false end.

(** Clock::on_time_jump.  [user_data] and [time_jump] are pointers; [None]
    is the null pointer. *)
Definition Clock_on_time_jump (time_jump : option rcl_time_jump_t)
    (before_jump : bool) (user_data : option addr) : M unit :=
  match user_data with
  | None => ret tt
  | Some handler =>
      h <- deref_handler handler;;
      if before_jump && nonempty (pre_callback h) then
        invoke_pre_callback handler (pre_callback h)
      else if negb before_jump && nonempty (post_callback h) then
        invoke_post_callback handler (post_callback h) time_jump
      else ret tt
  end.

(** The deleter lambda of the JumpHandler::SharedPtr returned by
    [create_jump_callback]; [shared_clock] is destroyed when the lambda
    returns. *)
Definition jump_handler_deleter (weak_clock : addr) (handler : addr) : M unit :=
  shared_clock <- weak_clock_lock weak_clock;;
  match shared_clock with
  | Some clock =>
      r <- call_rcl_clock_remove_jump_callback clock handler;;
      if decide (RCL_RET_OK = r) then ret tt
      else RCUTILS_LOG_ERROR "Failed to remove time jump callback"
  | None => ret tt
  end;;
  delete_handler handler;;
  match shared_clock with
  | Some clock => shared_clock_release clock
  | None => ret tt
  end.

(** [JumpHandler::SharedPtr(handler.release(), deleter)] *)
Definition make_shared_handler (handler : addr) (weak_clock : addr) : M addr :=
  fun w =>
    match handlers w !! handler with
    | Some cell =>
        (Returned handler,
         set_handlers
           (insert handler {| h_obj := h_obj cell;
                              h_owner := Shared 1%positive weak_clock |}) w)
    | None => (Undefined, w)
    end.

(** [nullptr == handler] for the result of [new]: never true, as [new]
    throws when it cannot allocate. *)
Definition is_nullptr (p : addr) : bool := false.

(** Clock::create_jump_callback.  When the body throws, the unique_ptr
    [handler] still owns the JumpHandler and deletes it; after
    [handler.release()] its destructor does nothing. *)
Definition Clock_create_jump_callback (c : Clock)
    (pre_callback : option (U -> U))
    (post_callback : option (rcl_time_jump_t -> U -> U))
    (threshold : rcl_jump_threshold_t) : M addr :=
  handler <- new_JumpHandler (JumpHandler_ctor pre_callback post_callback threshold);;
  on_unwind
    ((if is_nullptr handler then throw std_bad_alloc else ret tt);;
     r <- call_rcl_clock_add_jump_callback (rcl_clock_ c) threshold handler;;
     if decide (RCL_RET_OK = r) then ret tt
     else throw_from_rcl_error r "Failed to add time jump callback")
    (delete_handler handler);;
  let weak_clock := rcl_clock_ c in
  make_shared_handler handler weak_clock.

(** Copy of a JumpHandler::SharedPtr. *)
Definition shared_handler_copy (p : addr) : M unit :=
  fun w =>
    match handlers w !! p with
    | Some {| h_obj := h; h_owner := Shared n weak_clock |} =>
        (Returned tt,
         set_handlers
           (insert p {| h_obj := h; h_owner := Shared (Pos.succ n) weak_clock |}) w)
    | _ => (Undefined, w)
    end.

(** Destruction of a JumpHandler::SharedPtr: the deleter runs when the last
    strong reference goes away. *)
Definition shared_handler_release (p : addr) : M unit :=
  fun w =>
    match handlers w !! p with
    | Some {| h_obj := h; h_owner := Shared n weak_clock |} =>
        if decide (n = 1%positive) then jump_handler_deleter weak_clock p w
        else
          (Returned tt,
           set_handlers
             (insert p {| h_obj := h; h_owner := Shared (Pos.pred n) weak_clock |}) w)
    | _ => (Undefined, w)
    end.

(** ** Runs

    What the rest of the program can do with clocks and handler tokens, and
    what the backend does when it dispatches a jump.  [OpRclCall] is code
    outside clock.cpp using the pointer returned by [get_clock_handle]. *)
Variant op :=
  | OpClockCtor (clock_type : rcl_clock_type_t)
  | OpClockCopy (c : Clock)
  | OpClockDtor (c : Clock)
  | OpNow (c : Clock)
  | OpRosTimeIsActive (c : Clock)
  | OpGetClockType (c : Clock)
  | OpRclCall (c : Clock) (f : rcl_clock_t -> rcl_clock_t)
  | OpCreateJumpCallback (c : Clock)
      (pre_callback : option (U -> U))
      (post_callback : option (rcl_time_jump_t -> U -> U))
      (threshold : rcl_jump_threshold_t)
  | OpTokenCopy (token : addr)
  | OpTokenRelease (token : addr)
  | OpOnTimeJump (time_jump : option rcl_time_jump_t) (before_jump : bool)
      (user_data : option addr).

Definition discard {A} (m : M A) : M unit := m;; ret tt.

Definition exec (o : op) : M unit :=
  match o with
  | OpClockCtor clock_type => discard (Clock_ctor clock_type)
  | OpClockCopy c => discard (Clock_copy c)
  | OpClockDtor c => Clock_dtor c
  | OpNow c => discard (Clock_now c)
  | OpRosTimeIsActive c => discard (Clock_ros_time_is_active c)
  | OpGetClockType c => discard (Clock_get_clock_type c)
  | OpRclCall c f =>
      obj <- deref_clock (Clock_get_clock_handle c);;
      store_clock (Clock_get_clock_handle c) (f obj)
  | OpCreateJumpCallback c pre post threshold =>
      discard (Clock_create_jump_callback c pre post threshold)
  | OpTokenCopy token => shared_handler_copy token
  | OpTokenRelease token => shared_handler_release token
  | OpOnTimeJump time_jump before_jump user_data =>
      Clock_on_time_jump time_jump before_jump user_data
  end.

Definition init_world (u : U) : World :=
  {| clocks := ∅; handlers := ∅; next_clock := 1%positive;
     next_handler := 1%positive; trace := []; user := u |}.

(** The worlds of runs with defined behaviour; a run goes on after an
    exception. *)
Inductive reachable : World -> Prop :=
  | reachable_init u : reachable (init_world u)
  | reachable_step w o r w' :
      reachable w -> exec o w = (r, w') -> r <> Undefined -> reachable w'.

(** Counting in the trace. *)
Definition is_fini (a : addr) (e : event) : bool :=
  match e with EvClockFini c _ => bool_decide (c = a) | _ => false end.

Definition is_delete_clock (a : addr) (e : event) : bool :=
  match e with EvDeleteClock c => bool_decide (c = a) | _ => false end.

Definition is_delete_handler (h : addr) (e : event) : bool :=
  match e with EvDeleteHandler p => bool_decide (p = h) | _ => false end.

Definition is_remove (h : addr) (e : event) : bool :=
  match e with EvRemoveJumpCallback _ p _ => bool_decide (p = h) | _ => false end.


Fixpoint count (p : event -> bool) (tr : list event) : nat :=
  match tr with
  | [] => 0
  | e :: tr => Nat.b2n (p e) + count p tr
  end%nat.

(** The invariant of runs: identifiers are handed out in increasing order,
    and an object has been finalised or deleted once when it has been
    allocated and is gone, and never otherwise. *)
Definition once (alive : bool) (allocated : bool) : nat :=
  if alive then 0%nat else if allocated then 1%nat else 0%nat.

Definition allocated (next p : addr) : bool := bool_decide (p < next)%positive.

Definition alive {A} (m : gmap addr A) (p : addr) : bool :=
  match m !! p with Some _ => true | None => false end.

Record Inv (w : World) : Prop := Build_Inv {
  inv_clocks : forall a, alive (clocks w) a = true -> (a < next_clock w)%positive;
  inv_handlers :
    forall h, alive (handlers w) h = true -> (h < next_handler w)%positive;
  inv_fini :
    forall a,
      count (is_fini a) (trace w) =
      once (alive (clocks w) a) (allocated (next_clock w) a);
  inv_delete_clock :
    forall a,
      count (is_delete_clock a) (trace w) =
      once (alive (clocks w) a) (allocated (next_clock w) a);
  inv_delete_handler :
    forall h,
      count (is_delete_handler h) (trace w) =
      once (alive (handlers w) h) (allocated (next_handler w) h);
  inv_remove :
    forall h,
      (count (is_remove h) (trace w) <= count (is_delete_handler h) (trace w))%nat;
}.

(** What [rcl_clock_deleter] logs. *)
Definition fini_log (r : rcl_ret_t) : list event :=
  if decide (r = RCL_RET_OK) then []
  else [EvLogError "Failed to fini rcl clock."].

(** What the deleter lambda logs. *)
Definition remove_log (r : rcl_ret_t) : list event :=
  if decide (RCL_RET_OK = r) then []
  else [EvLogError "Failed to remove time jump callback"].

(** One operation of a run:

    [transition w o w']: what operation [o] makes of world [w] when its
    behaviour is defined, as the equations of the functions give it. *)
Inductive transition (w : World) : op -> World -> Prop :=
  | T_ctor_ok ty r obj' :
      transition w (OpClockCtor ty)
        (add_events [EvNewClock (next_clock w); EvClockInit (next_clock w) ty r]
           (set_next_clock (Pos.succ (next_clock w))
              (set_clocks
                 (insert (next_clock w) {| c_strong := 1; c_obj := obj' |}) w)))
  | T_ctor_fail ty r r2 :
      transition w (OpClockCtor ty)
        (add_events
           ([EvNewClock (next_clock w); EvClockInit (next_clock w) ty r;
             EvClockFini (next_clock w) r2]
            ++ fini_log r2 ++ [EvDeleteClock (next_clock w)])
           (set_next_clock (Pos.succ (next_clock w))
              (set_clocks (delete (next_clock w)) w)))
  | T_release_last c cell r :
      clocks w !! rcl_clock_ c = Some cell ->
      c_strong cell = 1%positive ->
      transition w (OpClockDtor c)
        (add_events
           (EvClockFini (rcl_clock_ c) r
            :: fini_log r ++ [EvDeleteClock (rcl_clock_ c)])
           (set_clocks (delete (rcl_clock_ c)) w))
  | T_clock_update o a cell cell' evs :
      clocks w !! a = Some cell ->
      (forall x, count (is_fini x) evs = 0%nat) ->
      (forall x, count (is_delete_clock x) evs = 0%nat) ->
      (forall x, count (is_delete_handler x) evs = 0%nat) ->
      (forall x, count (is_remove x) evs = 0%nat) ->
      transition w o (add_events evs (set_clocks (insert a cell') w))
  | T_events o evs f :
      (forall x, count (is_fini x) evs = 0%nat) ->
      (forall x, count (is_delete_clock x) evs = 0%nat) ->
      (forall x, count (is_delete_handler x) evs = 0%nat) ->
      (forall x, count (is_remove x) evs = 0%nat) ->
      transition w o (add_events evs (set_user f w))
  | T_create_ok c pre post th cell cell' r hc :
      clocks w !! rcl_clock_ c = Some cell ->
      transition w (OpCreateJumpCallback c pre post th)
        (add_events
           [EvNewHandler (next_handler w);
            EvAddJumpCallback (rcl_clock_ c) th (next_handler w) r]
           (set_clocks (insert (rcl_clock_ c) cell')
              (set_next_handler (Pos.succ (next_handler w))
                 (set_handlers (insert (next_handler w) hc) w))))
  | T_create_fail c pre post th cell cell' r :
      clocks w !! rcl_clock_ c = Some cell ->
      transition w (OpCreateJumpCallback c pre post th)
        (add_events
           [EvNewHandler (next_handler w);
            EvAddJumpCallback (rcl_clock_ c) th (next_handler w) r;
            EvDeleteHandler (next_handler w)]
           (set_clocks (insert (rcl_clock_ c) cell')
              (set_next_handler (Pos.succ (next_handler w))
                 (set_handlers (delete (next_handler w)) w))))
  | T_handler_update o token hc hc' :
      handlers w !! token = Some hc ->
      transition w o (set_handlers (insert token hc') w)
  | T_token_expired token hc :
      handlers w !! token = Some hc ->
      transition w (OpTokenRelease token)
        (add_events [EvDeleteHandler token] (set_handlers (delete token) w))
  | T_token_alive token hc weak_clock cell cell' r :
      handlers w !! token = Some hc ->
      clocks w !! weak_clock = Some cell ->
      transition w (OpTokenRelease token)
        (add_events
           (EvRemoveJumpCallback weak_clock token r
            :: remove_log r ++ [EvDeleteHandler token])
           (set_clocks (insert weak_clock cell')
              (set_handlers (delete token) w))).

(** Running a list of operations. *)
Definition defined {A} (r : outcome A) : bool :=
  match r with Undefined => false | _ => true end.

Fixpoint run (ops : list op) (w : World) : World :=
  match ops with
  | [] => w
  | o :: ops => run ops (snd (exec o w))
  end.

Fixpoint run_defined (ops : list op) (w : World) : bool :=
  match ops with
  | [] => true
  | o :: ops => defined (fst (exec o w)) && run_defined ops (snd (exec o w))
  end.

End Model.

Arguments JumpHandler {_} U.
Arguments handler_cell {_} U.
Arguments World {_} U.
Arguments event {_}.
Arguments Time {_}.
Arguments M {_} U A.
Arguments op {_} U.
Arguments transition {_ _ _} w o w'.
Arguments alive {A} m p.
Arguments Returned {A} a.
Arguments Thrown {A} e.
Arguments Undefined {A}.

(** ** A small backend

    A stand-in for rcl on which the theorems below are instantiated at
    concrete inputs: a counter as time source, an override flag and a table
    of armed jump callbacks.  Initialisation rejects the uninitialised clock
    type, arming rejects a handler that is armed already, disarming rejects
    a handler that is not armed. *)
Module Sim.

Variant clock_type := UNINITIALIZED | ROS_TIME | SYSTEM_TIME | STEADY_TIME.

Record time_jump := Build_time_jump {
  clock_change : bool;
  delta : Z;
}.

Record jump_threshold := Build_jump_threshold {
  on_clock_change : bool;
  min_forward : Z;
  min_backward : Z;
}.

Record clock_impl := Build_clock_impl {
  ticks : Z;
  override : bool;
  jump_callbacks : list addr;
}.

#[export] Instance types : RclTypes := {|
  rcl_clock_type_t := clock_type;
  rcl_allocator_t := unit;
  rcl_time_jump_t := time_jump;
  rcl_jump_threshold_t := jump_threshold;
  rcl_clock_impl_t := clock_impl;
|}.

Definition RET_OK : rcl_ret_t := 0.
Definition RET_ERROR : rcl_ret_t := 1.
Definition RET_INVALID_ARGUMENT : rcl_ret_t := 11.

Definition zero : rcl_clock_t :=
  {| type := UNINITIALIZED;
     impl := {| ticks := 0; override := false; jump_callbacks := [] |} |}.

Definition initialized (c : rcl_clock_t) : bool :=
  match type c with UNINITIALIZED => false | _ => true end.

Definition init (ty : clock_type) (c : rcl_clock_t) (_ : unit)
    : rcl_ret_t * rcl_clock_t :=
  match ty with
  | UNINITIALIZED => (RET_INVALID_ARGUMENT, c)
  | _ => (RET_OK, {| type := ty; impl := impl zero |})
  end.

Definition fini (c : rcl_clock_t) : rcl_ret_t * rcl_clock_t :=
  if initialized c then (RET_OK, zero) else (RET_INVALID_ARGUMENT, c).

Definition get_now (c : rcl_clock_t) (v : rcl_time_point_value_t)
    : rcl_ret_t * rcl_time_point_value_t * rcl_clock_t :=
  if initialized c then
    (RET_OK, ticks (impl c),
     {| type := type c;
        impl := {| ticks := ticks (impl c) + 1; override := override (impl c);
                   jump_callbacks := jump_callbacks (impl c) |} |})
  else (RET_ERROR, v, c).

Definition is_enabled_ros_time_override (c : rcl_clock_t) (b : bool)
    : rcl_ret_t * bool * rcl_clock_t :=
  match type c with
  | ROS_TIME => (RET_OK, override (impl c), c)
  | _ => (RET_ERROR, b, c)
  end.

Definition armed (c : rcl_clock_t) (h : addr) : bool :=
  bool_decide (h ∈ jump_callbacks (impl c)).

Definition add_jump_callback (c : rcl_clock_t) (_ : jump_threshold) (h : addr)
    : rcl_ret_t * rcl_clock_t :=
  if armed c h then (RET_ERROR, c)
  else
    (RET_OK,
     {| type := type c;
        impl := {| ticks := ticks (impl c); override := override (impl c);
                   jump_callbacks := h :: jump_callbacks (impl c) |} |}).

Definition remove_jump_callback (c : rcl_clock_t) (h : addr)
    : rcl_ret_t * rcl_clock_t :=
  if armed c h then
    (RET_OK,
     {| type := type c;
        impl := {| ticks := ticks (impl c); override := override (impl c);
                   jump_callbacks :=
                     List.filter (fun p => negb (Pos.eqb p h))
                       (jump_callbacks (impl c)) |} |})
  else (RET_ERROR, c).

#[export] Instance backend : RclBackend := {|
  RCL_RET_OK := RET_OK;
  rcl_clock_zero := zero;
  rcl_get_default_allocator := tt;
  rcl_clock_init := init;
  rcl_clock_fini := fini;
  rcl_clock_get_now := get_now;
  rcl_clock_valid := initialized;
  rcl_is_enabled_ros_time_override := is_enabled_ros_time_override;
  rcl_clock_add_jump_callback := add_jump_callback;
  rcl_clock_remove_jump_callback := remove_jump_callback;
|}.

(** User state: how often each kind of callback ran, and the last delta. *)
Record counters := Build_counters {
  pre_calls : nat;
  post_calls : nat;
  last_delta : Z;
}.

Definition on_pre (u : counters) : counters :=
  {| pre_calls := S (pre_calls u); post_calls := post_calls u;
     last_delta := last_delta u |}.

Definition on_post (j : time_jump) (u : counters) : counters :=
  {| pre_calls := pre_calls u; post_calls := S (post_calls u);
     last_delta := delta j |}.

Definition u0 : counters := {| pre_calls := 0; post_calls := 0; last_delta := 0 |}.

Definition threshold : jump_threshold :=
  {| on_clock_change := true; min_forward := 1; min_backward := 1 |}.

(** Concrete runs. *)
Definition the_clock : Clock := {| allocator_ := tt; rcl_clock_ := 1%positive |}.

Definition second_clock : Clock := {| allocator_ := tt; rcl_clock_ := 2%positive |}.

Definition jump5 : time_jump := {| clock_change := false; delta := 5000000000 |}.

Definition the_handler : JumpHandler counters :=
  JumpHandler_ctor (Some on_pre) (Some on_post) threshold.

Definition the_cell : handler_cell counters :=
  {| h_obj := the_handler; h_owner := Shared 1 1%positive |}.

(** A ROS clock. *)
Definition ops_clock : list (op counters) := [OpClockCtor ROS_TIME].

(** A ROS clock and a handler registered on it. *)
Definition ops_handler : list (op counters) :=
  [OpClockCtor ROS_TIME;
   OpCreateJumpCallback the_clock (Some on_pre) (Some on_post) threshold].

(** The clock is destroyed while the token of the handler is alive. *)
Definition ops_orphan : list (op counters) :=
  [OpClockCtor ROS_TIME;
   OpCreateJumpCallback the_clock (Some on_pre) (Some on_post) threshold;
   OpClockDtor the_clock].

(** The clock is reset to the uninitialised state behind the back of the
    Clock. *)
Definition ops_invalid : list (op counters) :=
  [OpClockCtor ROS_TIME; OpRclCall the_clock (fun _ => zero)].

(** The identifier the next handler will get is armed already, so that
    arming it fails. *)
Definition arm (h : addr) (c : rcl_clock_t) : rcl_clock_t :=
  {| type := type c;
     impl := {| ticks := ticks (impl c); override := override (impl c);
                jump_callbacks := h :: jump_callbacks (impl c) |} |}.

Definition ops_armed : list (op counters) :=
  [OpClockCtor ROS_TIME; OpRclCall the_clock (arm 1%positive)].

(** A constructor that fails, then a clock that is copied and destroyed
    twice. *)
Definition ops_history : list (op counters) :=
  [OpClockCtor UNINITIALIZED; OpClockCtor ROS_TIME; OpClockCopy second_clock;
   OpClockDtor second_clock; OpClockDtor second_clock].

(** A clock with one Clock object left. *)
Definition ops_last : list (op counters) :=
  [OpClockCtor ROS_TIME; OpClockCopy the_clock; OpClockDtor the_clock].

Definition world (ops : list (op counters)) : World counters :=
  run ops (init_world u0).

(** The ROS clock as rcl_clock_init leaves it, and with the handler armed. *)
Definition ros_clock : rcl_clock_t := {| type := ROS_TIME; impl := impl zero |}.

Definition armed_clock : rcl_clock_t := arm 1%positive ros_clock.

Definition ticked_clock : rcl_clock_t :=
  {| type := ROS_TIME;
     impl := {| ticks := 1; override := false; jump_callbacks := [] |} |}.

(** A system clock, on which the override cannot be queried. *)
Definition ops_system : list (op counters) := [OpClockCtor SYSTEM_TIME].

Definition system_clock : rcl_clock_t :=
  {| type := SYSTEM_TIME; impl := impl zero |}.

(** A handler is registered and its token destroyed, then a second handler
    is registered. *)
Definition ops_released : list (op counters) :=
  [OpClockCtor ROS_TIME;
   OpCreateJumpCallback the_clock (Some on_pre) (Some on_post) threshold;
   OpTokenRelease 1%positive;
   OpCreateJumpCallback the_clock None (Some on_post) threshold].

End Sim.

(** ** Properties *)

Section Properties.
Context `{RT : RclTypes} `{RB : !RclBackend} {U : Type}.
Implicit Types (w : World U) (c : Clock) (p a : addr).

(** *** Equations of the primitives *)

Lemma bind_Returned {A B} (m : M U A) (k : A -> M U B) w x w' :
  m w = (Returned x, w') -> bind m k w = k x w'.
Proof. unfold bind. intros ->. reflexivity. Qed.

Lemma bind_Thrown {A B} (m : M U A) (k : A -> M U B) w e w' :
  m w = (Thrown e, w') -> bind m k w = (Thrown e, w').
Proof. unfold bind. intros ->. reflexivity. Qed.

Lemma bind_Undefined {A B} (m : M U A) (k : A -> M U B) w w' :
  m w = (Undefined, w') -> bind m k w = (Undefined, w').
Proof. unfold bind. intros ->. reflexivity. Qed.

Lemma deref_clock_Some w p cell :
  clocks w !! p = Some cell -> deref_clock p w = (Returned (c_obj cell), w).
Proof. unfold deref_clock. intros ->. reflexivity. Qed.

Lemma deref_clock_None w p :
  clocks w !! p = None -> deref_clock p w = (Undefined, w).
Proof. unfold deref_clock. intros ->. reflexivity. Qed.

Lemma store_clock_Some w p cell obj :
  clocks w !! p = Some cell ->
  store_clock p obj w =
    (Returned tt,
     set_clocks (insert p {| c_strong := c_strong cell; c_obj := obj |}) w).
Proof. unfold store_clock. intros ->. reflexivity. Qed.

Lemma delete_clock_Some w p cell :
  clocks w !! p = Some cell ->
  delete_clock p w =
    (Returned tt, add_events [EvDeleteClock p] (set_clocks (delete p) w)).
Proof. unfold delete_clock. intros ->. reflexivity. Qed.

Lemma deref_handler_Some w p (cell : handler_cell U) :
  handlers w !! p = Some cell -> deref_handler p w = (Returned (h_obj cell), w).
Proof. unfold deref_handler. intros ->. reflexivity. Qed.

Lemma delete_handler_Some w p (cell : handler_cell U) :
  handlers w !! p = Some cell ->
  delete_handler p w =
    (Returned tt, add_events [EvDeleteHandler p] (set_handlers (delete p) w)).
Proof. unfold delete_handler. intros ->. reflexivity. Qed.

Lemma emit_eq (e : event) w : emit e w = (Returned tt, add_events [e] w).
Proof. reflexivity. Qed.

(** Worlds are compared field by field. *)
Lemma World_eq w1 w2 :
  clocks w1 = clocks w2 -> handlers w1 = handlers w2 ->
  next_clock w1 = next_clock w2 -> next_handler w1 = next_handler w2 ->
  trace w1 = trace w2 -> user w1 = user w2 -> w1 = w2.
Proof. destruct w1, w2. cbn. intros. congruence. Qed.

Ltac wsimpl :=
  cbn [clocks handlers next_clock next_handler trace user set_clocks
       set_handlers set_next_clock set_next_handler add_events set_user
       c_strong c_obj h_obj h_owner fst snd] in *.

Ltac world_eq :=
  apply World_eq; wsimpl;
  rewrite <- ?List.app_assoc; cbn [List.app];
  rewrite ?delete_insert_eq, ?insert_insert_eq;
  try reflexivity.

(** One step of a [bind] whose first action returns. *)
Ltac mstep tac := erewrite bind_Returned; [ | solve [ tac ] ]; cbv beta iota.

Ltac lookup_tac :=
  wsimpl; rewrite ?lookup_insert_eq; first [ eassumption | reflexivity ].

(** *** Equations of the calls into rcl *)

Lemma call_rcl_clock_init_eq w ty p alloc cell r obj' :
  clocks w !! p = Some cell ->
  rcl_clock_init ty (c_obj cell) alloc = (r, obj') ->
  call_rcl_clock_init ty p alloc w =
    (Returned r,
     add_events [EvClockInit p ty r]
       (set_clocks (insert p {| c_strong := c_strong cell; c_obj := obj' |}) w)).
Proof.
  intros Hc E. unfold call_rcl_clock_init.
  mstep ltac:(apply deref_clock_Some; eassumption). rewrite E.
  mstep ltac:(apply store_clock_Some; eassumption).
  reflexivity.
Qed.

Lemma call_rcl_clock_fini_eq w p cell r obj' :
  clocks w !! p = Some cell ->
  rcl_clock_fini (c_obj cell) = (r, obj') ->
  call_rcl_clock_fini p w =
    (Returned r,
     add_events [EvClockFini p r]
       (set_clocks (insert p {| c_strong := c_strong cell; c_obj := obj' |}) w)).
Proof.
  intros Hc E. unfold call_rcl_clock_fini.
  mstep ltac:(apply deref_clock_Some; eassumption). rewrite E.
  mstep ltac:(apply store_clock_Some; eassumption).
  reflexivity.
Qed.

Lemma call_rcl_clock_get_now_eq w p v cell r v' obj' :
  clocks w !! p = Some cell ->
  rcl_clock_get_now (c_obj cell) v = (r, v', obj') ->
  call_rcl_clock_get_now p v w =
    (Returned (r, v'),
     add_events [EvClockGetNow p r]
       (set_clocks (insert p {| c_strong := c_strong cell; c_obj := obj' |}) w)).
Proof.
  intros Hc E. unfold call_rcl_clock_get_now.
  mstep ltac:(apply deref_clock_Some; eassumption). rewrite E.
  mstep ltac:(apply store_clock_Some; eassumption).
  reflexivity.
Qed.

Lemma call_rcl_clock_valid_eq w p cell :
  clocks w !! p = Some cell ->
  call_rcl_clock_valid p w =
    (Returned (rcl_clock_valid (c_obj cell)),
     add_events [EvClockValid p (rcl_clock_valid (c_obj cell))] w).
Proof.
  intros Hc. unfold call_rcl_clock_valid.
  mstep ltac:(apply deref_clock_Some; eassumption).
  reflexivity.
Qed.

Lemma call_rcl_is_enabled_ros_time_override_eq w p b cell r b' obj' :
  clocks w !! p = Some cell ->
  rcl_is_enabled_ros_time_override (c_obj cell) b = (r, b', obj') ->
  call_rcl_is_enabled_ros_time_override p b w =
    (Returned (r, b'),
     add_events [EvIsEnabledRosTimeOverride p r]
       (set_clocks (insert p {| c_strong := c_strong cell; c_obj := obj' |}) w)).
Proof.
  intros Hc E. unfold call_rcl_is_enabled_ros_time_override.
  mstep ltac:(apply deref_clock_Some; eassumption). rewrite E.
  mstep ltac:(apply store_clock_Some; eassumption).
  reflexivity.
Qed.

Lemma call_rcl_clock_add_jump_callback_eq w p th h cell r obj' :
  clocks w !! p = Some cell ->
  rcl_clock_add_jump_callback (c_obj cell) th h = (r, obj') ->
  call_rcl_clock_add_jump_callback p th h w =
    (Returned r,
     add_events [EvAddJumpCallback p th h r]
       (set_clocks (insert p {| c_strong := c_strong cell; c_obj := obj' |}) w)).
Proof.
  intros Hc E. unfold call_rcl_clock_add_jump_callback.
  mstep ltac:(apply deref_clock_Some; eassumption). rewrite E.
  mstep ltac:(apply store_clock_Some; eassumption).
  reflexivity.
Qed.

Lemma call_rcl_clock_remove_jump_callback_eq w p h cell r obj' :
  clocks w !! p = Some cell ->
  rcl_clock_remove_jump_callback (c_obj cell) h = (r, obj') ->
  call_rcl_clock_remove_jump_callback p h w =
    (Returned r,
     add_events [EvRemoveJumpCallback p h r]
       (set_clocks (insert p {| c_strong := c_strong cell; c_obj := obj' |}) w)).
Proof.
  intros Hc E. unfold call_rcl_clock_remove_jump_callback.
  mstep ltac:(apply deref_clock_Some; eassumption). rewrite E.
  mstep ltac:(apply store_clock_Some; eassumption).
  reflexivity.
Qed.

(** *** Equations of the functions of clock.cpp *)

Lemma rcl_clock_deleter_eq w p cell r obj' :
  clocks w !! p = Some cell ->
  rcl_clock_fini (c_obj cell) = (r, obj') ->
  rcl_clock_deleter p w =
    (Returned tt,
     add_events (EvClockFini p r :: fini_log r ++ [EvDeleteClock p])
       (set_clocks (delete p) w)).
Proof.
  intros Hc E. unfold rcl_clock_deleter.
  mstep ltac:(eapply call_rcl_clock_fini_eq; eassumption).
  unfold fini_log. destruct (decide (r = RCL_RET_OK)).
  - mstep ltac:(reflexivity).
    erewrite delete_clock_Some by lookup_tac.
    f_equal. world_eq.
  - mstep ltac:(apply emit_eq).
    erewrite delete_clock_Some by lookup_tac.
    f_equal. world_eq.
Qed.

Lemma shared_clock_release_last w p cell r obj' :
  clocks w !! p = Some cell ->
  c_strong cell = 1%positive ->
  rcl_clock_fini (c_obj cell) = (r, obj') ->
  shared_clock_release p w =
    (Returned tt,
     add_events (EvClockFini p r :: fini_log r ++ [EvDeleteClock p])
       (set_clocks (delete p) w)).
Proof.
  intros Hc H1 E. unfold shared_clock_release. rewrite Hc.
  rewrite decide_True by assumption.
  eapply rcl_clock_deleter_eq; eassumption.
Qed.

Lemma shared_clock_release_other w p cell :
  clocks w !! p = Some cell ->
  c_strong cell <> 1%positive ->
  shared_clock_release p w =
    (Returned tt,
     set_clocks
       (insert p {| c_strong := Pos.pred (c_strong cell); c_obj := c_obj cell |})
       w).
Proof.
  intros Hc H1. unfold shared_clock_release. rewrite Hc.
  rewrite decide_False by assumption. reflexivity.
Qed.

Lemma on_unwind_Returned {A} (body : M U A) cleanup w x w' :
  body w = (Returned x, w') -> on_unwind body cleanup w = (Returned x, w').
Proof. unfold on_unwind. intros ->. reflexivity. Qed.

Lemma on_unwind_Thrown {A} (body : M U A) cleanup w e w' w'' :
  body w = (Thrown e, w') -> cleanup w' = (Returned tt, w'') ->
  on_unwind body cleanup w = (Thrown e, w'').
Proof. unfold on_unwind. intros -> ->. reflexivity. Qed.

(** Clock::Clock, when rcl_clock_init succeeds. *)
Lemma Clock_ctor_ok w ty r obj' :
  rcl_clock_init ty rcl_clock_zero rcl_get_default_allocator = (r, obj') ->
  r = RCL_RET_OK ->
  Clock_ctor ty w =
    (Returned {| allocator_ := rcl_get_default_allocator;
                 rcl_clock_ := next_clock w |},
     add_events [EvNewClock (next_clock w); EvClockInit (next_clock w) ty r]
       (set_next_clock (Pos.succ (next_clock w))
          (set_clocks
             (insert (next_clock w) {| c_strong := 1; c_obj := obj' |}) w))).
Proof.
  intros E Hr. unfold Clock_ctor.
  mstep ltac:(reflexivity).
  erewrite bind_Returned.
  2:{ apply on_unwind_Returned.
      mstep ltac:(eapply call_rcl_clock_init_eq; [lookup_tac | exact E]).
      rewrite decide_True by assumption. reflexivity. }
  unfold ret. f_equal. world_eq.
Qed.

(** Clock::Clock, when rcl_clock_init fails: the shared pointer member is
    destroyed, so [rcl_clock_deleter] runs on the clock that failed to
    initialise, and the exception leaves the constructor. *)
Lemma Clock_ctor_fail w ty r obj' r2 obj'' :
  rcl_clock_init ty rcl_clock_zero rcl_get_default_allocator = (r, obj') ->
  r <> RCL_RET_OK ->
  rcl_clock_fini obj' = (r2, obj'') ->
  Clock_ctor ty w =
    (Thrown (RCLError r "could not get current time stamp"),
     add_events
       ([EvNewClock (next_clock w); EvClockInit (next_clock w) ty r;
         EvClockFini (next_clock w) r2]
        ++ fini_log r2 ++ [EvDeleteClock (next_clock w)])
       (set_next_clock (Pos.succ (next_clock w))
          (set_clocks (delete (next_clock w)) w))).
Proof.
  intros E Hr E2. unfold Clock_ctor.
  mstep ltac:(reflexivity).
  erewrite bind_Thrown; [reflexivity|].
  erewrite on_unwind_Thrown.
  2:{ mstep ltac:(eapply call_rcl_clock_init_eq; [lookup_tac | exact E]).
      rewrite decide_False by assumption. reflexivity. }
  2:{ eapply shared_clock_release_last; [lookup_tac | reflexivity | exact E2]. }
  f_equal. world_eq.
Qed.

(** Clock::now *)
Lemma Clock_now_eq c w cell r ns obj' :
  clocks w !! rcl_clock_ c = Some cell ->
  rcl_clock_get_now (c_obj cell) 0 = (r, ns, obj') ->
  Clock_now c w =
    (if decide (r = RCL_RET_OK)
     then Returned {| rcl_time_ := {| nanoseconds := ns;
                                      clock_type := type (c_obj cell) |} |}
     else Thrown (RCLError r "could not get current time stamp"),
     add_events [EvClockGetNow (rcl_clock_ c) r]
       (set_clocks
          (insert (rcl_clock_ c)
             {| c_strong := c_strong cell; c_obj := obj' |}) w)).
Proof.
  intros Hc E. unfold Clock_now.
  mstep ltac:(apply deref_clock_Some; eassumption).
  mstep ltac:(eapply call_rcl_clock_get_now_eq; [eassumption | exact E]).
  repeat case_decide; try congruence; reflexivity.
Qed.

(** Clock::ros_time_is_active, on an invalid clock. *)
Lemma Clock_ros_time_is_active_invalid c w cell :
  clocks w !! rcl_clock_ c = Some cell ->
  rcl_clock_valid (c_obj cell) = false ->
  Clock_ros_time_is_active c w =
    (Returned false,
     add_events [EvClockValid (rcl_clock_ c) false;
                 EvLogError "ROS time not valid!"] w).
Proof.
  intros Hc Hv. unfold Clock_ros_time_is_active.
  mstep ltac:(apply call_rcl_clock_valid_eq; eassumption).
  rewrite Hv. cbn [negb].
  mstep ltac:(apply emit_eq).
  unfold ret. f_equal. world_eq.
Qed.

(** Clock::ros_time_is_active, on a valid clock. *)
Lemma Clock_ros_time_is_active_valid c w cell r b obj' :
  clocks w !! rcl_clock_ c = Some cell ->
  rcl_clock_valid (c_obj cell) = true ->
  rcl_is_enabled_ros_time_override (c_obj cell) false = (r, b, obj') ->
  Clock_ros_time_is_active c w =
    (if decide (r = RCL_RET_OK) then Returned b
     else Thrown (RCLError r "Failed to check ros_time_override_status"),
     add_events [EvClockValid (rcl_clock_ c) true;
                 EvIsEnabledRosTimeOverride (rcl_clock_ c) r]
       (set_clocks
          (insert (rcl_clock_ c)
             {| c_strong := c_strong cell; c_obj := obj' |}) w)).
Proof.
  intros Hc Hv E. unfold Clock_ros_time_is_active.
  mstep ltac:(apply call_rcl_clock_valid_eq; eassumption).
  rewrite Hv. cbn [negb].
  mstep ltac:(eapply call_rcl_is_enabled_ros_time_override_eq;
              [lookup_tac | exact E]).
  repeat case_decide; try congruence;
    unfold ret, throw_from_rcl_error, throw; f_equal; world_eq.
Qed.

(** Clock::get_clock_type *)
Lemma get_clock_type_eq c w cell :
  clocks w !! rcl_clock_ c = Some cell ->
  Clock_get_clock_type c w = (Returned (type (c_obj cell)), w).
Proof.
  intros Hc. unfold Clock_get_clock_type.
  rewrite (bind_Returned _ _ _ _ _ (deref_clock_Some _ _ _ Hc)). reflexivity.
Qed.


(** Clock::on_time_jump on a null [user_data]. *)
Lemma Clock_on_time_jump_null w time_jump before_jump :
  Clock_on_time_jump time_jump before_jump None w = (Returned tt, w).
Proof. reflexivity. Qed.

(** Clock::on_time_jump before the jump. *)
Lemma Clock_on_time_jump_before w time_jump handler (cell : handler_cell U) :
  handlers w !! handler = Some cell ->
  Clock_on_time_jump time_jump true (Some handler) w =
    match pre_callback (h_obj cell) with
    | Some f =>
        (Returned tt, add_events [EvPreCallback handler] (set_user f w))
    | None => (Returned tt, w)
    end.
Proof.
  intros Hh. unfold Clock_on_time_jump.
  mstep ltac:(apply deref_handler_Some; eassumption).
  destruct (pre_callback (h_obj cell)); reflexivity.
Qed.

(** Clock::on_time_jump after the jump. *)
Lemma Clock_on_time_jump_after w j handler (cell : handler_cell U) :
  handlers w !! handler = Some cell ->
  Clock_on_time_jump (Some j) false (Some handler) w =
    match post_callback (h_obj cell) with
    | Some g =>
        (Returned tt, add_events [EvPostCallback handler j] (set_user (g j) w))
    | None => (Returned tt, w)
    end.
Proof.
  intros Hh. unfold Clock_on_time_jump.
  mstep ltac:(apply deref_handler_Some; eassumption).
  destruct (post_callback (h_obj cell)); reflexivity.
Qed.

(** Clock::create_jump_callback, when arming succeeds. *)
Lemma Clock_create_jump_callback_ok c w pre post th cell r obj' :
  clocks w !! rcl_clock_ c = Some cell ->
  rcl_clock_add_jump_callback (c_obj cell) th (next_handler w) = (r, obj') ->
  r = RCL_RET_OK ->
  Clock_create_jump_callback c pre post th w =
    (Returned (next_handler w),
     add_events
       [EvNewHandler (next_handler w);
        EvAddJumpCallback (rcl_clock_ c) th (next_handler w) r]
       (set_clocks
          (insert (rcl_clock_ c) {| c_strong := c_strong cell; c_obj := obj' |})
          (set_next_handler (Pos.succ (next_handler w))
             (set_handlers
                (insert (next_handler w)
                   {| h_obj := JumpHandler_ctor pre post th;
                      h_owner := Shared 1 (rcl_clock_ c) |}) w)))).
Proof.
  intros Hc E Hr. unfold Clock_create_jump_callback.
  mstep ltac:(reflexivity).
  erewrite bind_Returned.
  2:{ apply on_unwind_Returned.
      mstep ltac:(reflexivity).
      mstep ltac:(eapply call_rcl_clock_add_jump_callback_eq;
                  [lookup_tac | exact E]).
      rewrite decide_True by congruence. reflexivity. }
  unfold make_shared_handler. wsimpl. rewrite lookup_insert_eq. wsimpl.
  f_equal. world_eq.
Qed.

(** Clock::create_jump_callback, when arming fails: the unique_ptr deletes
    the JumpHandler while the exception propagates. *)
Lemma Clock_create_jump_callback_fail c w pre post th cell r obj' :
  clocks w !! rcl_clock_ c = Some cell ->
  rcl_clock_add_jump_callback (c_obj cell) th (next_handler w) = (r, obj') ->
  r <> RCL_RET_OK ->
  Clock_create_jump_callback c pre post th w =
    (Thrown (RCLError r "Failed to add time jump callback"),
     add_events
       [EvNewHandler (next_handler w);
        EvAddJumpCallback (rcl_clock_ c) th (next_handler w) r;
        EvDeleteHandler (next_handler w)]
       (set_clocks
          (insert (rcl_clock_ c) {| c_strong := c_strong cell; c_obj := obj' |})
          (set_next_handler (Pos.succ (next_handler w))
             (set_handlers (delete (next_handler w)) w)))).
Proof.
  intros Hc E Hr. unfold Clock_create_jump_callback.
  mstep ltac:(reflexivity).
  erewrite bind_Thrown; [reflexivity|].
  erewrite on_unwind_Thrown.
  2:{ mstep ltac:(reflexivity).
      mstep ltac:(eapply call_rcl_clock_add_jump_callback_eq;
                  [lookup_tac | exact E]).
      rewrite decide_False by congruence. reflexivity. }
  2:{ eapply delete_handler_Some. lookup_tac. }
  f_equal. world_eq.
Qed.

(** The deleter lambda, when the clock has been destroyed. *)
Lemma jump_handler_deleter_expired w weak_clock handler (hc : handler_cell U) :
  handlers w !! handler = Some hc ->
  clocks w !! weak_clock = None ->
  jump_handler_deleter weak_clock handler w =
    (Returned tt,
     add_events [EvDeleteHandler handler] (set_handlers (delete handler) w)).
Proof.
  intros Hh Hc. unfold jump_handler_deleter.
  erewrite bind_Returned.
  2:{ unfold weak_clock_lock. rewrite Hc. reflexivity. }
  mstep ltac:(reflexivity).
  mstep ltac:(eapply delete_handler_Some; eassumption).
  reflexivity.
Qed.

(** The deleter lambda, when the clock is alive. *)
Lemma jump_handler_deleter_alive w weak_clock handler (hc : handler_cell U)
    cell r obj' :
  handlers w !! handler = Some hc ->
  clocks w !! weak_clock = Some cell ->
  rcl_clock_remove_jump_callback (c_obj cell) handler = (r, obj') ->
  jump_handler_deleter weak_clock handler w =
    (Returned tt,
     add_events
       (EvRemoveJumpCallback weak_clock handler r
        :: remove_log r ++ [EvDeleteHandler handler])
       (set_clocks
          (insert weak_clock {| c_strong := c_strong cell; c_obj := obj' |})
          (set_handlers (delete handler) w))).
Proof.
  intros Hh Hc E. unfold jump_handler_deleter.
  erewrite bind_Returned.
  2:{ unfold weak_clock_lock. rewrite Hc. reflexivity. }
  assert (Hne : Pos.succ (c_strong cell) <> 1%positive) by lia.
  unfold remove_log. destruct (decide (RCL_RET_OK = r)).
  - erewrite bind_Returned.
    2:{ mstep ltac:(eapply call_rcl_clock_remove_jump_callback_eq;
                    [lookup_tac | exact E]).
        rewrite decide_True by congruence. reflexivity. }
    mstep ltac:(eapply delete_handler_Some; lookup_tac).
    erewrite shared_clock_release_other; [ | lookup_tac | exact Hne ].
    f_equal. wsimpl. rewrite Pos.pred_succ. world_eq.
  - erewrite bind_Returned.
    2:{ mstep ltac:(eapply call_rcl_clock_remove_jump_callback_eq;
                    [lookup_tac | exact E]).
        rewrite decide_False by congruence. apply emit_eq. }
    mstep ltac:(eapply delete_handler_Some; lookup_tac).
    erewrite shared_clock_release_other; [ | lookup_tac | exact Hne ].
    f_equal. wsimpl. rewrite Pos.pred_succ. world_eq.
Qed.

(** Destruction of a token that is not the last one. *)
Lemma shared_handler_release_other w token h n weak_clock :
  handlers w !! token = Some {| h_obj := h; h_owner := Shared n weak_clock |} ->
  n <> 1%positive ->
  shared_handler_release token w =
    (Returned tt,
     set_handlers
       (insert token
          {| h_obj := h; h_owner := Shared (Pos.pred n) weak_clock |}) w).
Proof.
  intros Hh Hn. unfold shared_handler_release. rewrite Hh.
  rewrite decide_False by assumption. reflexivity.
Qed.

(** Destruction of the last token. *)
Lemma shared_handler_release_last w token h weak_clock :
  handlers w !! token = Some {| h_obj := h; h_owner := Shared 1 weak_clock |} ->
  shared_handler_release token w = jump_handler_deleter weak_clock token w.
Proof.
  intros Hh. unfold shared_handler_release. rewrite Hh.
  rewrite decide_True by reflexivity. reflexivity.
Qed.

(** *** Dangling pointers *)

Lemma discard_eq {A} (m : M U A) w r w' :
  m w = (r, w') ->
  discard m w =
    (match r with
     | Returned _ => Returned tt
     | Thrown e => Thrown e
     | Undefined => Undefined
     end, w').
Proof. unfold discard, bind. intros ->. destruct r; reflexivity. Qed.

Lemma Clock_now_dangling c w :
  clocks w !! rcl_clock_ c = None -> Clock_now c w = (Undefined, w).
Proof.
  intros Hc. unfold Clock_now.
  erewrite bind_Undefined; [reflexivity|]. apply deref_clock_None, Hc.
Qed.

Lemma Clock_ros_time_is_active_dangling c w :
  clocks w !! rcl_clock_ c = None ->
  Clock_ros_time_is_active c w = (Undefined, w).
Proof.
  intros Hc. unfold Clock_ros_time_is_active, call_rcl_clock_valid.
  erewrite bind_Undefined; [reflexivity|].
  erewrite bind_Undefined; [reflexivity|]. apply deref_clock_None, Hc.
Qed.

Lemma Clock_get_clock_type_dangling c w :
  clocks w !! rcl_clock_ c = None ->
  Clock_get_clock_type c w = (Undefined, w).
Proof.
  intros Hc. unfold Clock_get_clock_type.
  erewrite bind_Undefined; [reflexivity|]. apply deref_clock_None, Hc.
Qed.

Lemma Clock_create_jump_callback_dangling c w pre post th :
  clocks w !! rcl_clock_ c = None ->
  exists w', Clock_create_jump_callback c pre post th w = (Undefined, w') /\
             clocks w' = clocks w.
Proof.
  intros Hc. unfold Clock_create_jump_callback.
  mstep ltac:(reflexivity).
  eexists. split.
  - erewrite bind_Undefined; [reflexivity|].
    unfold on_unwind, call_rcl_clock_add_jump_callback.
    erewrite (bind_Returned (if is_nullptr _ then _ else _)) by reflexivity.
    erewrite bind_Undefined; [reflexivity|].
    erewrite bind_Undefined; [reflexivity|].
    apply deref_clock_None. wsimpl. exact Hc.
  - reflexivity.
Qed.

(** *** The invariant of runs *)

Lemma count_app (q : event -> bool) tr1 tr2 :
  count q (tr1 ++ tr2) = (count q tr1 + count q tr2)%nat.
Proof. induction tr1 as [|e tr1 IH]; cbn; [reflexivity | rewrite IH; lia]. Qed.

Lemma count_fini_log (q : event -> bool) r :
  (forall msg, q (EvLogError msg) = false) -> count q (fini_log r) = 0%nat.
Proof. intros Hq. unfold fini_log. case_decide; cbn; rewrite ?Hq; reflexivity. Qed.

Lemma count_remove_log (q : event -> bool) r :
  (forall msg, q (EvLogError msg) = false) -> count q (remove_log r) = 0%nat.
Proof. intros Hq. unfold remove_log. case_decide; cbn; rewrite ?Hq; reflexivity. Qed.

Lemma alive_insert {A} (m : gmap addr A) p x q :
  alive (<[p:=x]> m) q = bool_decide (p = q) || alive m q.
Proof.
  unfold alive. rewrite lookup_insert.
  case_decide; case_bool_decide; try congruence; reflexivity.
Qed.

Lemma alive_delete {A} (m : gmap addr A) p q :
  alive (delete p m) q = negb (bool_decide (p = q)) && alive m q.
Proof.
  unfold alive. rewrite lookup_delete.
  case_decide; case_bool_decide; try congruence; reflexivity.
Qed.

Lemma alive_Some {A} (m : gmap addr A) p x : m !! p = Some x -> alive m p = true.
Proof. unfold alive. intros ->. reflexivity. Qed.

Lemma alive_None {A} (m : gmap addr A) p : m !! p = None -> alive m p = false.
Proof. unfold alive. intros ->. reflexivity. Qed.

Lemma allocated_succ next p :
  allocated (Pos.succ next) p = bool_decide (p = next) || allocated next p.
Proof. unfold allocated. repeat case_bool_decide; try reflexivity; lia. Qed.

Lemma Inv_fresh_clock w : Inv w -> alive (clocks w) (next_clock w) = false.
Proof.
  intros I. destruct (alive (clocks w) (next_clock w)) eqn:E; [|reflexivity].
  apply (inv_clocks _ I) in E. lia.
Qed.

Lemma Inv_fresh_handler w : Inv w -> alive (handlers w) (next_handler w) = false.
Proof.
  intros I. destruct (alive (handlers w) (next_handler w)) eqn:E; [|reflexivity].
  apply (inv_handlers _ I) in E. lia.
Qed.

(** Proves [Inv] of a world written as updates of a world that has it. *)
Ltac inv_solve I :=
  let Fc := fresh "Fc" in
  let Fh := fresh "Fh" in
  pose proof (Inv_fresh_clock _ I) as Fc;
  pose proof (Inv_fresh_handler _ I) as Fh;
  destruct I as [I1 I2 I3 I4 I5 I6];
  constructor; intros x;
  specialize (I1 x); specialize (I2 x); specialize (I3 x);
  specialize (I4 x); specialize (I5 x); specialize (I6 x);
  wsimpl;
  rewrite ?count_app, ?alive_insert, ?alive_delete, ?allocated_succ;
  cbn [count is_fini is_delete_clock is_delete_handler is_remove Nat.b2n];
  rewrite ?count_app, ?count_fini_log, ?count_remove_log by reflexivity;
  repeat match goal with
         | Z : forall x, count _ ?evs = 0%nat |- context [count _ ?evs] =>
             rewrite Z
         end;
  cbn [count is_fini is_delete_clock is_delete_handler is_remove Nat.b2n];
  unfold once, allocated in *;
  repeat case_bool_decide; subst;
  repeat match goal with
         | H : alive ?m ?p = _ |- _ => rewrite H in *
         end;
  repeat match goal with
         | |- context [alive ?m ?p] => destruct (alive m p)
         | H : context [alive ?m ?p] |- _ => destruct (alive m p)
         end;
  cbn [orb andb negb Nat.b2n] in *;
  try congruence; try lia.

(** The final world of an equation [(r1, w1) = (r, w')]. *)
Ltac final_world E :=
  apply pair_equal_spec in E; destruct E as [? <-].

Lemma Inv_init (u : U) : Inv (init_world u).
Proof.
  constructor; intros x; cbn; unfold alive, once, allocated;
    rewrite ?lookup_empty; try congruence; try case_bool_decide; lia.
Qed.

Lemma add_events_nil w : add_events [] w = w.
Proof. apply World_eq; wsimpl; rewrite ?app_nil_r; reflexivity. Qed.

Lemma T_same w o : transition w o w.
Proof.
  rewrite <- (add_events_nil w) at 2.
  replace w with (set_user (fun u => u) w) at 2 by (destruct w; reflexivity).
  apply T_events; reflexivity.
Qed.

Lemma exec_transition o w r w' :
  exec o w = (r, w') -> r <> Undefined -> transition w o w'.
Proof.
  intros E Hr. destruct o as [ty|c|c|c|c|c|c f|c pre post th|t|t|j b ud];
    cbn [exec] in E.
  - (* Clock::Clock *)
    destruct (rcl_clock_init ty rcl_clock_zero rcl_get_default_allocator)
      as [r1 obj'] eqn:E1.
    destruct (decide (r1 = RCL_RET_OK)) as [H1|H1].
    + rewrite (discard_eq _ _ _ _ (Clock_ctor_ok _ _ _ _ E1 H1)) in E.
      final_world E. constructor.
    + destruct (rcl_clock_fini obj') as [r2 obj''] eqn:E2.
      rewrite (discard_eq _ _ _ _ (Clock_ctor_fail _ _ _ _ _ _ E1 H1 E2)) in E.
      final_world E. constructor.
  - (* copy of a Clock *)
    unfold discard, Clock_copy, shared_clock_copy, bind, ret in E.
    destruct (clocks w !! rcl_clock_ c) as [cell|] eqn:Hc; [|congruence].
    final_world E. rewrite <- add_events_nil.
    eapply T_clock_update; [eassumption | reflexivity ..].
  - (* Clock::~Clock *)
    unfold Clock_dtor in E.
    destruct (clocks w !! rcl_clock_ c) as [cell|] eqn:Hc.
    + destruct (decide (c_strong cell = 1%positive)) as [H1|H1].
      * destruct (rcl_clock_fini (c_obj cell)) as [r2 obj'] eqn:E2.
        rewrite (shared_clock_release_last _ _ _ _ _ Hc H1 E2) in E.
        final_world E. econstructor; eassumption.
      * rewrite (shared_clock_release_other _ _ _ Hc H1) in E.
        final_world E. rewrite <- add_events_nil.
        eapply T_clock_update; [eassumption | reflexivity ..].
    + unfold shared_clock_release in E. rewrite Hc in E. congruence.
  - (* Clock::now *)
    destruct (clocks w !! rcl_clock_ c) as [cell|] eqn:Hc.
    + destruct (rcl_clock_get_now (c_obj cell) 0) as [[r1 ns] obj'] eqn:E1.
      rewrite (discard_eq _ _ _ _ (Clock_now_eq _ _ _ _ _ _ Hc E1)) in E.
      final_world E. eapply T_clock_update; [eassumption | reflexivity ..].
    + rewrite (discard_eq _ _ _ _ (Clock_now_dangling _ _ Hc)) in E. congruence.
  - (* Clock::ros_time_is_active *)
    destruct (clocks w !! rcl_clock_ c) as [cell|] eqn:Hc.
    + destruct (rcl_clock_valid (c_obj cell)) eqn:Hv.
      * destruct (rcl_is_enabled_ros_time_override (c_obj cell) false)
          as [[r1 b] obj'] eqn:E1.
        rewrite (discard_eq _ _ _ _
                   (Clock_ros_time_is_active_valid _ _ _ _ _ _ Hc Hv E1)) in E.
        final_world E. eapply T_clock_update; [eassumption | reflexivity ..].
      * rewrite (discard_eq _ _ _ _
                   (Clock_ros_time_is_active_invalid _ _ _ Hc Hv)) in E.
        final_world E.
        replace w with (set_user (fun u => u) w) at 2 by (destruct w; reflexivity).
        apply T_events; reflexivity.
    + rewrite (discard_eq _ _ _ _ (Clock_ros_time_is_active_dangling _ _ Hc)) in E.
      congruence.
  - (* Clock::get_clock_type *)
    destruct (clocks w !! rcl_clock_ c) as [cell|] eqn:Hc.
    + rewrite (discard_eq _ _ _ _ (get_clock_type_eq _ _ _ Hc)) in E.
      final_world E. apply T_same.
    + rewrite (discard_eq _ _ _ _ (Clock_get_clock_type_dangling _ _ Hc)) in E.
      congruence.
  - (* a call into rcl through get_clock_handle *)
    unfold Clock_get_clock_handle in E.
    destruct (clocks w !! rcl_clock_ c) as [cell|] eqn:Hc.
    + rewrite (bind_Returned _ _ _ _ _ (deref_clock_Some _ _ _ Hc)) in E.
      rewrite (store_clock_Some _ _ _ _ Hc) in E.
      final_world E. rewrite <- add_events_nil.
      eapply T_clock_update; [eassumption | reflexivity ..].
    + rewrite (bind_Undefined _ _ _ _ (deref_clock_None _ _ Hc)) in E.
      congruence.
  - (* Clock::create_jump_callback *)
    destruct (clocks w !! rcl_clock_ c) as [cell|] eqn:Hc.
    + destruct (rcl_clock_add_jump_callback (c_obj cell) th (next_handler w))
        as [r1 obj'] eqn:E1.
      destruct (decide (r1 = RCL_RET_OK)) as [H1|H1].
      * rewrite (discard_eq _ _ _ _
                   (Clock_create_jump_callback_ok _ _ pre post _ _ _ _ Hc E1 H1))
          in E.
        final_world E. econstructor; eassumption.
      * rewrite (discard_eq _ _ _ _
                   (Clock_create_jump_callback_fail _ _ pre post _ _ _ _ Hc E1 H1))
          in E.
        final_world E. econstructor; eassumption.
    + destruct (Clock_create_jump_callback_dangling c w pre post th Hc) as [w1 [E1 _]].
      rewrite (discard_eq _ _ _ _ E1) in E. congruence.
  - (* copy of a token *)
    unfold shared_handler_copy in E.
    destruct (handlers w !! t) as [[h [|n wc]]|] eqn:Hh; try congruence.
    final_world E. econstructor; eassumption.
  - (* destruction of a token *)
    destruct (handlers w !! t) as [[h [|n wc]]|] eqn:Hh.
    + unfold shared_handler_release in E. rewrite Hh in E. congruence.
    + destruct (decide (n = 1%positive)) as [H1|H1].
      * subst n. rewrite (shared_handler_release_last _ _ _ _ Hh) in E.
        destruct (clocks w !! wc) as [cell|] eqn:Hc.
        -- destruct (rcl_clock_remove_jump_callback (c_obj cell) t)
             as [r2 obj'] eqn:E2.
           rewrite (jump_handler_deleter_alive _ _ _ _ _ _ _ Hh Hc E2) in E.
           final_world E. econstructor; eassumption.
        -- rewrite (jump_handler_deleter_expired _ _ _ _ Hh Hc) in E.
           final_world E. econstructor; eassumption.
      * rewrite (shared_handler_release_other _ _ _ _ _ Hh H1) in E.
        final_world E. econstructor; eassumption.
    + unfold shared_handler_release in E. rewrite Hh in E. congruence.
  - (* Clock::on_time_jump *)
    destruct ud as [handler|].
    + destruct (handlers w !! handler) as [cell|] eqn:Hh.
      * unfold Clock_on_time_jump in E.
        rewrite (bind_Returned _ _ _ _ _ (deref_handler_Some _ _ _ Hh)) in E.
        unfold invoke_pre_callback, invoke_post_callback, modify, ret,
          undefined in E.
        destruct b, (pre_callback (h_obj cell)), (post_callback (h_obj cell)),
          j; cbn [andb negb nonempty] in E; final_world E;
          try congruence; try apply T_same; apply T_events; reflexivity.
      * unfold Clock_on_time_jump, bind, deref_handler in E.
        rewrite Hh in E. congruence.
    + final_world E. apply T_same.
Qed.

Lemma transition_Inv w o w' : Inv w -> transition w o w' -> Inv w'.
Proof.
  intros I T.
  destruct T as [ | | | o a cell cell' evs Hc Z1 Z2 Z3 Z4 | o evs f Z1 Z2 Z3 Z4
                | | | | | ];
    repeat match goal with
           | H : clocks _ !! _ = Some _ |- _ => apply alive_Some in H
           | H : handlers _ !! _ = Some _ |- _ => apply alive_Some in H
           end.
  all: inv_solve I.
Qed.

Lemma exec_Inv o w r w' :
  Inv w -> exec o w = (r, w') -> r <> Undefined -> Inv w'.
Proof.
  intros I E Hr. eapply transition_Inv; [exact I|].
  eapply exec_transition; eassumption.
Qed.

Lemma reachable_Inv w : reachable w -> Inv w.
Proof.
  induction 1 as [u|w o r w' _ IH E Hr].
  - apply Inv_init.
  - eapply exec_Inv; eassumption.
Qed.

Lemma shared_handler_release_returns w token h n weak_clock :
  handlers w !! token = Some {| h_obj := h; h_owner := Shared n weak_clock |} ->
  exists w', shared_handler_release token w = (Returned tt, w').
Proof.
  intros Hh. destruct (decide (n = 1%positive)) as [->|Hn].
  - rewrite (shared_handler_release_last _ _ _ _ Hh).
    destruct (clocks w !! weak_clock) as [cell|] eqn:Hc.
    + destruct (rcl_clock_remove_jump_callback (c_obj cell) token)
        as [r obj'] eqn:E.
      rewrite (jump_handler_deleter_alive _ _ _ _ _ _ _ Hh Hc E). eauto.
    + rewrite (jump_handler_deleter_expired _ _ _ _ Hh Hc). eauto.
  - rewrite (shared_handler_release_other _ _ _ _ _ Hh Hn). eauto.
Qed.

Lemma transition_clock_gone w o w' a cell :
  Inv w -> transition w o w' ->
  clocks w !! a = Some cell -> clocks w' !! a = None ->
  c_strong cell = 1%positive /\ exists c, o = OpClockDtor c /\ rcl_clock_ c = a.
Proof.
  intros I T Ha Hgone. pose proof (Inv_fresh_clock _ I) as Fc.
  destruct T as [ | | c cell0 r Hc H1 | | | | | | | ]; wsimpl;
    try (rewrite lookup_insert in Hgone; case_decide; congruence);
    try congruence.
  - (* a constructor that failed deletes the clock it allocated *)
    rewrite lookup_delete in Hgone. case_decide; [|congruence].
    subst a. rewrite (alive_Some _ _ _ Ha) in Fc. discriminate.
  - (* the destructor of the last Clock *)
    rewrite lookup_delete in Hgone. case_decide; [|congruence].
    subst a. split; [congruence|]. exists c. split; reflexivity.
Qed.

Lemma strong_insert (m : gmap addr clock_cell) a cell obj :
  m !! a = Some cell ->
  c_strong <$> <[a:={| c_strong := c_strong cell; c_obj := obj |}]> m
  = c_strong <$> m.
Proof.
  intros Ha. rewrite fmap_insert. apply insert_id.
  rewrite lookup_fmap, Ha. reflexivity.
Qed.

Lemma reachable_run ops w :
  reachable w -> run_defined ops w = true -> reachable (run ops w).
Proof.
  revert w. induction ops as [|o ops IH]; intros w R D; cbn in *; [exact R|].
  apply andb_prop in D. destruct D as [D1 D2]. apply IH; [|exact D2].
  eapply (reachable_step w o (fst (exec o w))); [exact R| |].
  - apply surjective_pairing.
  - destruct (fst (exec o w)); cbn in D1; congruence.
Qed.

(** *** The claims *)

(** C1.  Clock::on_time_jump does nothing on a null handler; before the jump
    it calls the pre-jump callback exactly when the handler has one, and
    nothing else; after the jump it calls the post-jump callback, on the
    given jump description, exactly when the handler has one, and nothing
    else.  The world after the call differs from the world before it by the
    one callback invocation at most. *)
Theorem on_time_jump_dispatch w time_jump j handler (cell : handler_cell U) :
  handlers w !! handler = Some cell ->
  (forall before_jump,
     Clock_on_time_jump time_jump before_jump None w = (Returned tt, w)) /\
  Clock_on_time_jump time_jump true (Some handler) w =
    match pre_callback (h_obj cell) with
    | Some f =>
        (Returned tt, add_events [EvPreCallback handler] (set_user f w))
    | None => (Returned tt, w)
    end /\
  Clock_on_time_jump (Some j) false (Some handler) w =
    match post_callback (h_obj cell) with
    | Some g =>
        (Returned tt, add_events [EvPostCallback handler j] (set_user (g j) w))
    | None => (Returned tt, w)
    end.
Proof.
  intros Hh. split; [|split].
  - intros b. apply Clock_on_time_jump_null.
  - apply Clock_on_time_jump_before, Hh.
  - apply Clock_on_time_jump_after, Hh.
Qed.

(** C2.  Destroying a token that is not the last one only drops a
    reference.  Destroying the last one runs the deleter: when the clock the
    weak pointer refers to has been destroyed, no rcl function is called and
    no clock is touched; when it is alive, rcl_clock_remove_jump_callback is
    called on it for this handler, and a failure is logged; in both cases
    the call returns normally.  Over a whole run the callback of a handler
    is removed at most once, and never while a token of it is alive. *)
Theorem token_release_deregisters w token h n weak_clock :
  reachable w ->
  handlers w !! token = Some {| h_obj := h; h_owner := Shared n weak_clock |} ->
  (n <> 1%positive ->
   shared_handler_release token w =
     (Returned tt,
      set_handlers
        (insert token
           {| h_obj := h; h_owner := Shared (Pos.pred n) weak_clock |}) w)) /\
  (n = 1%positive -> clocks w !! weak_clock = None ->
   shared_handler_release token w =
     (Returned tt,
      add_events [EvDeleteHandler token] (set_handlers (delete token) w))) /\
  (n = 1%positive ->
   forall cell r obj',
     clocks w !! weak_clock = Some cell ->
     rcl_clock_remove_jump_callback (c_obj cell) token = (r, obj') ->
     shared_handler_release token w =
       (Returned tt,
        add_events
          (EvRemoveJumpCallback weak_clock token r
           :: (if decide (RCL_RET_OK = r) then []
               else [EvLogError "Failed to remove time jump callback"])
           ++ [EvDeleteHandler token])
          (set_clocks
             (insert weak_clock {| c_strong := c_strong cell; c_obj := obj' |})
             (set_handlers (delete token) w)))) /\
  count (is_remove token) (trace w) = 0%nat /\
  (count (is_remove token) (trace (snd (shared_handler_release token w))) <= 1)%nat.
Proof.
  intros R Hh. pose proof (reachable_Inv _ R) as I.
  pose proof (alive_Some _ _ _ Hh) as Ha.
  assert (H0 : count (is_remove token) (trace w) = 0%nat).
  { pose proof (inv_remove _ I token) as H1.
    rewrite (inv_delete_handler _ I token), Ha in H1. cbn in H1. lia. }
  split; [|split; [|split; [|split]]].
  - intros Hn. apply shared_handler_release_other; assumption.
  - intros -> Hc. rewrite (shared_handler_release_last _ _ _ _ Hh).
    eapply jump_handler_deleter_expired; eassumption.
  - intros -> cell r obj' Hc E.
    rewrite (shared_handler_release_last _ _ _ _ Hh).
    eapply jump_handler_deleter_alive; eassumption.
  - exact H0.
  - destruct (shared_handler_release_returns _ _ _ _ _ Hh) as [w' E].
    rewrite E. cbn [snd].
    assert (I' : Inv w').
    { eapply (exec_Inv (OpTokenRelease token)); [exact I|exact E|discriminate]. }
    pose proof (inv_remove _ I' token) as H1.
    rewrite (inv_delete_handler _ I' token) in H1.
    unfold once in H1. repeat case_match; lia.
Qed.

Lemma alive_false {A} (m : gmap addr A) p : alive m p = false -> m !! p = None.
Proof. unfold alive. destruct (m !! p); [discriminate | reflexivity]. Qed.

(** C3.  Clock::create_jump_callback, by the result of
    rcl_clock_add_jump_callback.  When it fails, the call throws the error
    with the status of rcl; by then the JumpHandler allocated by the call
    has been deleted, the handlers are what they were, no rcl function has
    been called after the failed one, and the clock is as the failed call
    left it (unchanged, when a failed rcl_clock_add_jump_callback leaves the
    clock unchanged).  When it succeeds, the call returns a token to a new
    JumpHandler made of the arguments, with one strong reference. *)
Theorem create_jump_callback_atomic c w pre post th cell r obj' :
  reachable w ->
  clocks w !! rcl_clock_ c = Some cell ->
  rcl_clock_add_jump_callback (c_obj cell) th (next_handler w) = (r, obj') ->
  (r <> RCL_RET_OK ->
   exists w',
     Clock_create_jump_callback c pre post th w =
       (Thrown (RCLError r "Failed to add time jump callback"), w') /\
     trace w' =
       trace w ++ [EvNewHandler (next_handler w);
                   EvAddJumpCallback (rcl_clock_ c) th (next_handler w) r;
                   EvDeleteHandler (next_handler w)] /\
     handlers w' = handlers w /\
     clocks w' =
       <[rcl_clock_ c:={| c_strong := c_strong cell; c_obj := obj' |}]>
         (clocks w) /\
     (obj' = c_obj cell -> clocks w' = clocks w)) /\
  (r = RCL_RET_OK ->
   exists w',
     Clock_create_jump_callback c pre post th w =
       (Returned (next_handler w), w') /\
     trace w' =
       trace w ++ [EvNewHandler (next_handler w);
                   EvAddJumpCallback (rcl_clock_ c) th (next_handler w) r] /\
     handlers w !! next_handler w = None /\
     handlers w' =
       <[next_handler w:={| h_obj := JumpHandler_ctor pre post th;
                            h_owner := Shared 1 (rcl_clock_ c) |}]>
         (handlers w)).
Proof.
  intros R Hc E. pose proof (reachable_Inv _ R) as I.
  pose proof (alive_false _ _ (Inv_fresh_handler _ I)) as Fh.
  split; intros Hr.
  - eexists. split; [eapply Clock_create_jump_callback_fail; eassumption|].
    wsimpl. repeat split.
    + apply delete_id, Fh.
    + intros ->. apply insert_id. rewrite Hc. destruct cell; reflexivity.
  - eexists. split; [eapply Clock_create_jump_callback_ok; eassumption|].
    wsimpl. repeat split. exact Fh.
Qed.

(** C4.  A JumpHandler holds the clock through the weak pointer captured by
    the deleter of its token, and through nothing else: registering a
    handler leaves every strong count as it was, and so do copying a token,
    destroying a token (the strong reference taken by the deleter is given
    back before it returns) and dispatching a jump, of which the first and
    the last do not touch the clocks at all.  Hence the destructor of the
    last Clock destroys the rcl clock whatever tokens are alive. *)
Theorem handler_holds_weak_reference w :
  (forall c pre post th r w',
     Clock_create_jump_callback c pre post th w = (r, w') ->
     c_strong <$> clocks w' = c_strong <$> clocks w) /\
  (forall c pre post th token w',
     Clock_create_jump_callback c pre post th w = (Returned token, w') ->
     handlers w' !! token =
       Some {| h_obj := JumpHandler_ctor pre post th;
               h_owner := Shared 1 (rcl_clock_ c) |}) /\
  (forall token r w',
     shared_handler_copy token w = (r, w') -> clocks w' = clocks w) /\
  (forall token r w',
     shared_handler_release token w = (r, w') ->
     c_strong <$> clocks w' = c_strong <$> clocks w) /\
  (forall time_jump before_jump user_data r w',
     Clock_on_time_jump time_jump before_jump user_data w = (r, w') ->
     clocks w' = clocks w) /\
  (forall c cell,
     clocks w !! rcl_clock_ c = Some cell -> c_strong cell = 1%positive ->
     exists w',
       Clock_dtor c w = (Returned tt, w') /\
       clocks w' !! rcl_clock_ c = None /\
       handlers w' = handlers w).
Proof.
  split; [|split; [|split; [|split; [|split]]]].
  - intros c pre post th r w' E.
    destruct (clocks w !! rcl_clock_ c) as [cell|] eqn:Hc.
    + destruct (rcl_clock_add_jump_callback (c_obj cell) th (next_handler w))
        as [r1 obj'] eqn:E1.
      destruct (decide (r1 = RCL_RET_OK)) as [H1|H1].
      * rewrite (Clock_create_jump_callback_ok _ _ pre post _ _ _ _ Hc E1 H1) in E.
        final_world E. wsimpl. apply strong_insert, Hc.
      * rewrite (Clock_create_jump_callback_fail _ _ pre post _ _ _ _ Hc E1 H1) in E.
        final_world E. wsimpl. apply strong_insert, Hc.
    + destruct (Clock_create_jump_callback_dangling c w pre post th Hc)
        as [w1 [E1 Hw1]].
      rewrite E1 in E. final_world E. rewrite Hw1. reflexivity.
  - intros c pre post th token w' E.
    destruct (clocks w !! rcl_clock_ c) as [cell|] eqn:Hc.
    + destruct (rcl_clock_add_jump_callback (c_obj cell) th (next_handler w))
        as [r1 obj'] eqn:E1.
      destruct (decide (r1 = RCL_RET_OK)) as [H1|H1].
      * rewrite (Clock_create_jump_callback_ok _ _ pre post _ _ _ _ Hc E1 H1) in E.
        apply pair_equal_spec in E. destruct E as [Et <-].
        injection Et as <-. wsimpl. apply lookup_insert_eq.
      * rewrite (Clock_create_jump_callback_fail _ _ pre post _ _ _ _ Hc E1 H1) in E.
        congruence.
    + destruct (Clock_create_jump_callback_dangling c w pre post th Hc)
        as [w1 [E1 _]].
      congruence.
  - intros token r w' E. unfold shared_handler_copy in E.
    destruct (handlers w !! token) as [[h [|n wc]]|]; final_world E; reflexivity.
  - intros token r w' E.
    destruct (handlers w !! token) as [[h [|n wc]]|] eqn:Hh.
    + unfold shared_handler_release in E. rewrite Hh in E.
      final_world E. reflexivity.
    + destruct (decide (n = 1%positive)) as [->|Hn].
      * rewrite (shared_handler_release_last _ _ _ _ Hh) in E.
        destruct (clocks w !! wc) as [cell|] eqn:Hc.
        -- destruct (rcl_clock_remove_jump_callback (c_obj cell) token)
             as [r2 obj'] eqn:E2.
           rewrite (jump_handler_deleter_alive _ _ _ _ _ _ _ Hh Hc E2) in E.
           final_world E. wsimpl. apply strong_insert, Hc.
        -- rewrite (jump_handler_deleter_expired _ _ _ _ Hh Hc) in E.
           final_world E. reflexivity.
      * rewrite (shared_handler_release_other _ _ _ _ _ Hh Hn) in E.
        final_world E. reflexivity.
    + unfold shared_handler_release in E. rewrite Hh in E.
      final_world E. reflexivity.
  - intros j b ud r w' E. unfold Clock_on_time_jump in E.
    destruct ud as [handler|]; [|final_world E; reflexivity].
    unfold bind, deref_handler in E.
    destruct (handlers w !! handler) as [cell|]; [|final_world E; reflexivity].
    unfold invoke_pre_callback, invoke_post_callback, modify, ret, throw,
      undefined in E.
    destruct b, (pre_callback (h_obj cell)), (post_callback (h_obj cell)), j;
      cbn [andb negb nonempty] in E; final_world E; reflexivity.
  - intros c cell Hc H1. unfold Clock_dtor.
    destruct (rcl_clock_fini (c_obj cell)) as [r2 obj'] eqn:E2.
    rewrite (shared_clock_release_last _ _ _ _ _ Hc H1 E2).
    eexists. split; [reflexivity|]. wsimpl. split; [|reflexivity].
    apply lookup_delete_eq.
Qed.

(** C5.  Clock::Clock, by the result of rcl_clock_init on the new
    rcl_clock_t.  When it succeeds, the constructor returns a Clock whose
    rcl clock is new, is what rcl_clock_init made of the requested type, has
    one strong reference, and can be used ([get_clock_type] returns on it);
    no other clock is changed.  When it fails, the constructor throws the
    error with the status of rcl and no Clock is returned; the rcl_clock_t
    it had allocated has been finalised and deleted, so that the clocks and
    the handlers are what they were. *)
Theorem Clock_ctor_atomic w ty r obj' :
  reachable w ->
  rcl_clock_init ty rcl_clock_zero rcl_get_default_allocator = (r, obj') ->
  (r = RCL_RET_OK ->
   exists c w',
     Clock_ctor ty w = (Returned c, w') /\
     clocks w !! rcl_clock_ c = None /\
     clocks w' =
       <[rcl_clock_ c:={| c_strong := 1; c_obj := obj' |}]> (clocks w) /\
     handlers w' = handlers w /\
     Clock_get_clock_type c w' = (Returned (type obj'), w')) /\
  (r <> RCL_RET_OK ->
   exists w',
     Clock_ctor ty w =
       (Thrown (RCLError r "could not get current time stamp"), w') /\
     clocks w' = clocks w /\
     handlers w' = handlers w /\
     count (is_fini (next_clock w)) (trace w') = 1%nat /\
     count (is_delete_clock (next_clock w)) (trace w') = 1%nat).
Proof.
  intros R E. pose proof (reachable_Inv _ R) as I.
  pose proof (Inv_fresh_clock _ I) as Fa.
  pose proof (alive_false _ _ Fa) as Fc.
  split; intros Hr.
  - eexists _, _. split; [eapply Clock_ctor_ok; eassumption|].
    wsimpl. cbn [rcl_clock_]. repeat split.
    + exact Fc.
    + erewrite get_clock_type_eq by (wsimpl; apply lookup_insert_eq).
      reflexivity.
  - destruct (rcl_clock_fini obj') as [r2 obj''] eqn:E2.
    eexists. split; [eapply Clock_ctor_fail; eassumption|].
    assert (I' : Inv (snd (Clock_ctor ty w))).
    { eapply (exec_Inv (OpClockCtor ty) w); [exact I| |].
      - cbn [exec]. rewrite (discard_eq _ _ _ _ (surjective_pairing _)).
        reflexivity.
      - rewrite (Clock_ctor_fail _ _ _ _ _ _ E Hr E2). discriminate. }
    rewrite (Clock_ctor_fail _ _ _ _ _ _ E Hr E2) in I'. cbn [snd] in I'.
    rewrite (inv_fini _ I' (next_clock w)).
    rewrite (inv_delete_clock _ I' (next_clock w)).
    wsimpl. rewrite alive_delete, Fa, allocated_succ.
    rewrite bool_decide_eq_true_2 by reflexivity.
    repeat split. apply delete_id, Fc.
Qed.

(** C6.  Clock::now, by the result of rcl_clock_get_now.  When it succeeds,
    the Time returned holds the nanoseconds that rcl wrote and the type of
    the clock, which is what [get_clock_type] returns; when it fails, the
    call throws the error with the status of rcl and returns no Time. *)
Theorem Clock_now_result c w cell r ns obj' :
  clocks w !! rcl_clock_ c = Some cell ->
  rcl_clock_get_now (c_obj cell) 0 = (r, ns, obj') ->
  Clock_get_clock_type c w = (Returned (type (c_obj cell)), w) /\
  (r = RCL_RET_OK ->
   Clock_now c w =
     (Returned {| rcl_time_ := {| nanoseconds := ns;
                                  clock_type := type (c_obj cell) |} |},
      add_events [EvClockGetNow (rcl_clock_ c) r]
        (set_clocks
           (insert (rcl_clock_ c)
              {| c_strong := c_strong cell; c_obj := obj' |}) w))) /\
  (r <> RCL_RET_OK ->
   Clock_now c w =
     (Thrown (RCLError r "could not get current time stamp"),
      add_events [EvClockGetNow (rcl_clock_ c) r]
        (set_clocks
           (insert (rcl_clock_ c)
              {| c_strong := c_strong cell; c_obj := obj' |}) w))).
Proof.
  intros Hc E. split; [apply get_clock_type_eq, Hc|].
  split; intros Hr; rewrite (Clock_now_eq _ _ _ _ _ _ Hc E).
  - rewrite decide_True by assumption. reflexivity.
  - rewrite decide_False by assumption. reflexivity.
Qed.

(** C7.  Clock::ros_time_is_active on a clock that rcl_clock_valid rejects:
    the call returns false, does not throw, logs an error, and calls no
    other rcl function. *)
Theorem invalid_clock_reports_inactive c w cell :
  clocks w !! rcl_clock_ c = Some cell ->
  rcl_clock_valid (c_obj cell) = false ->
  Clock_ros_time_is_active c w =
    (Returned false,
     add_events [EvClockValid (rcl_clock_ c) false;
                 EvLogError "ROS time not valid!"] w).
Proof. apply Clock_ros_time_is_active_invalid. Qed.

(** C8.  In every world of a run, an rcl clock that is alive has not been
    finalised nor deleted; one that has been allocated and is gone has been
    finalised once and deleted once; one that is still to be allocated has
    been neither.  An operation after which a clock that was alive is gone
    is the destructor of a Clock on that clock, and the strong count was 1
    before it. *)
Theorem backend_finalized_once w :
  reachable w ->
  (forall a,
     (alive (clocks w) a = true ->
      count (is_fini a) (trace w) = 0%nat /\
      count (is_delete_clock a) (trace w) = 0%nat) /\
     (alive (clocks w) a = false -> (a < next_clock w)%positive ->
      count (is_fini a) (trace w) = 1%nat /\
      count (is_delete_clock a) (trace w) = 1%nat) /\
     ((next_clock w <= a)%positive ->
      alive (clocks w) a = false /\
      count (is_fini a) (trace w) = 0%nat /\
      count (is_delete_clock a) (trace w) = 0%nat)) /\
  (forall o r w' a cell,
     exec o w = (r, w') -> r <> Undefined ->
     clocks w !! a = Some cell -> clocks w' !! a = None ->
     c_strong cell = 1%positive /\
     exists c, o = OpClockDtor c /\ rcl_clock_ c = a).
Proof.
  intros R. pose proof (reachable_Inv _ R) as I. split.
  - intros a. pose proof (inv_clocks _ I a) as H1.
    pose proof (inv_fini _ I a) as H2.
    pose proof (inv_delete_clock _ I a) as H3.
    unfold once, allocated in *. rewrite H2, H3.
    split; [|split].
    + intros ->. split; reflexivity.
    + intros -> Hlt. rewrite bool_decide_eq_true_2 by assumption.
      split; reflexivity.
    + intros Hle. destruct (alive (clocks w) a).
      * specialize (H1 eq_refl). lia.
      * rewrite bool_decide_eq_false_2 by lia. repeat split.
  - intros o r w' a cell E Hr Ha Hgone.
    eapply transition_clock_gone; [exact I| |exact Ha|exact Hgone].
    eapply exec_transition; eassumption.
Qed.

(** C9.  Clock::get_clock_type returns the type of the rcl clock, returns
    normally, and leaves the world as it is. *)
Theorem get_clock_type_pure c w cell :
  clocks w !! rcl_clock_ c = Some cell ->
  Clock_get_clock_type c w = (Returned (type (c_obj cell)), w).
Proof. apply get_clock_type_eq. Qed.

(** C10.  Destroying the last token of a JumpHandler returns normally and
    deletes the JumpHandler once, whether the clock has been destroyed, or
    removing the callback fails, or it succeeds; in the run up to and
    including the call the JumpHandler is deleted this once only. *)
Theorem token_release_frees_handler w token h weak_clock :
  reachable w ->
  handlers w !! token = Some {| h_obj := h; h_owner := Shared 1 weak_clock |} ->
  exists w' evs,
    shared_handler_release token w = (Returned tt, w') /\
    handlers w' = delete token (handlers w) /\
    trace w' = trace w ++ evs /\
    count (is_delete_handler token) evs = 1%nat /\
    count (is_delete_handler token) (trace w) = 0%nat /\
    count (is_delete_handler token) (trace w') = 1%nat.
Proof.
  intros R Hh. pose proof (reachable_Inv _ R) as I.
  assert (H0 : count (is_delete_handler token) (trace w) = 0%nat).
  { rewrite (inv_delete_handler _ I token), (alive_Some _ _ _ Hh). reflexivity. }
  rewrite (shared_handler_release_last _ _ _ _ Hh).
  destruct (clocks w !! weak_clock) as [cell|] eqn:Hc.
  - destruct (rcl_clock_remove_jump_callback (c_obj cell) token)
      as [r obj'] eqn:E.
    rewrite (jump_handler_deleter_alive _ _ _ _ _ _ _ Hh Hc E).
    eexists _, _. split; [reflexivity|]. wsimpl.
    split; [reflexivity|]. split; [reflexivity|].
    assert (H1 : count (is_delete_handler token)
                   (EvRemoveJumpCallback weak_clock token r
                    :: remove_log r ++ [EvDeleteHandler token]) = 1%nat).
    { cbn [count is_delete_handler Nat.b2n].
      rewrite count_app, count_remove_log by reflexivity.
      cbn [count is_delete_handler Nat.b2n].
      rewrite bool_decide_eq_true_2 by reflexivity. reflexivity. }
    split; [exact H1|]. split; [exact H0|].
    rewrite count_app, H0, H1. reflexivity.
  - rewrite (jump_handler_deleter_expired _ _ _ _ Hh Hc).
    eexists _, _. split; [reflexivity|]. wsimpl.
    split; [reflexivity|]. split; [reflexivity|].
    assert (H1 : count (is_delete_handler token) [EvDeleteHandler token] = 1%nat).
    { cbn [count is_delete_handler Nat.b2n].
      rewrite bool_decide_eq_true_2 by reflexivity. reflexivity. }
    split; [exact H1|]. split; [exact H0|].
    rewrite count_app, H0, H1. reflexivity.
Qed.

(** *** Further properties of clock.cpp *)

Lemma clock_cell_eta (cell : clock_cell) :
  {| c_strong := c_strong cell; c_obj := c_obj cell |} = cell.
Proof. destruct cell; reflexivity. Qed.

(** X1.  Clock::ros_time_is_active on a clock that rcl_clock_valid accepts:
    the result is the flag written by rcl_is_enabled_ros_time_override when
    that call succeeds; when it fails the call throws with its status.
    Unlike on an invalid clock, the failure is not turned into [false], and
    nothing is logged. *)
Theorem ros_time_is_active_on_valid_clock c w cell r b obj' :
  clocks w !! rcl_clock_ c = Some cell ->
  rcl_clock_valid (c_obj cell) = true ->
  rcl_is_enabled_ros_time_override (c_obj cell) false = (r, b, obj') ->
  (r = RCL_RET_OK ->
   Clock_ros_time_is_active c w =
     (Returned b,
      add_events [EvClockValid (rcl_clock_ c) true;
                  EvIsEnabledRosTimeOverride (rcl_clock_ c) r]
        (set_clocks
           (insert (rcl_clock_ c)
              {| c_strong := c_strong cell; c_obj := obj' |}) w))) /\
  (r <> RCL_RET_OK ->
   Clock_ros_time_is_active c w =
     (Thrown (RCLError r "Failed to check ros_time_override_status"),
      add_events [EvClockValid (rcl_clock_ c) true;
                  EvIsEnabledRosTimeOverride (rcl_clock_ c) r]
        (set_clocks
           (insert (rcl_clock_ c)
              {| c_strong := c_strong cell; c_obj := obj' |}) w))).
Proof.
  intros Hc Hv E.
  split; intros Hr; rewrite (Clock_ros_time_is_active_valid _ _ _ _ _ _ Hc Hv E).
  - rewrite decide_True by assumption. reflexivity.
  - rewrite decide_False by assumption. reflexivity.
Qed.

(** X2.  rcl_clock_deleter always deletes the rcl_clock_t and returns
    normally: rcl_clock_fini is called once, a failure of it is logged and
    does not keep the clock from being deleted, and what rcl_clock_fini left
    in the struct is dropped with it. *)
Theorem rcl_clock_deleter_always_deletes w p cell r obj' :
  clocks w !! p = Some cell ->
  rcl_clock_fini (c_obj cell) = (r, obj') ->
  rcl_clock_deleter p w =
    (Returned tt,
     add_events
       (EvClockFini p r
        :: (if decide (r = RCL_RET_OK) then []
            else [EvLogError "Failed to fini rcl clock."])
        ++ [EvDeleteClock p])
       (set_clocks (delete p) w)).
Proof. intros Hc E. eapply rcl_clock_deleter_eq; eassumption. Qed.

(** X3.  Copying a Clock and destroying the copy leaves the world exactly as
    it was: the rcl clock is shared, not duplicated, no rcl function is
    called, and the clock is not finalised. *)
Theorem Clock_copy_then_destroy c w cell :
  clocks w !! rcl_clock_ c = Some cell ->
  bind (Clock_copy c) Clock_dtor w = (Returned tt, w).
Proof.
  intros Hc. unfold Clock_copy.
  erewrite bind_Returned.
  2:{ erewrite bind_Returned; [reflexivity|].
      unfold shared_clock_copy. rewrite Hc. reflexivity. }
  unfold Clock_dtor. cbn [rcl_clock_].
  erewrite shared_clock_release_other; [ | lookup_tac | wsimpl; lia ].
  f_equal. apply World_eq; wsimpl; try reflexivity.
  rewrite Pos.pred_succ, insert_insert_eq, clock_cell_eta.
  apply insert_id, Hc.
Qed.


(** X5.  After Clock::now, whether it returned or threw, the Clock still
    refers to a live rcl clock with the strong count it had, the handlers
    are as they were, and the only call made is rcl_clock_get_now: the Clock
    can be used again. *)
Theorem Clock_now_keeps_clock_usable c w cell :
  clocks w !! rcl_clock_ c = Some cell ->
  fst (Clock_now c w) <> Undefined /\
  c_strong <$> clocks (snd (Clock_now c w)) = c_strong <$> clocks w /\
  handlers (snd (Clock_now c w)) = handlers w /\
  (exists r,
     trace (snd (Clock_now c w)) = trace w ++ [EvClockGetNow (rcl_clock_ c) r]) /\
  exists ty,
    Clock_get_clock_type c (snd (Clock_now c w))
      = (Returned ty, snd (Clock_now c w)).
Proof.
  intros Hc.
  destruct (rcl_clock_get_now (c_obj cell) 0) as [[r ns] obj'] eqn:E.
  rewrite (Clock_now_eq _ _ _ _ _ _ Hc E). cbn [fst snd]. wsimpl.
  split; [case_decide; discriminate|].
  split; [apply strong_insert, Hc|].
  split; [reflexivity|].
  split; [exists r; reflexivity|].
  eexists. apply get_clock_type_eq. wsimpl. apply lookup_insert_eq.
Qed.

(** X6.  Registering a jump callback and destroying the token at once,
    on a live clock: rcl_clock_add_jump_callback and
    rcl_clock_remove_jump_callback are called once each, on the same clock
    and for the same handler; the handlers are back to what they were, the
    strong count of the clock is what it was, and the call returns normally
    even when the removal fails. *)
Theorem register_then_release c w pre post th cell obj1 r2 obj2 :
  reachable w ->
  clocks w !! rcl_clock_ c = Some cell ->
  rcl_clock_add_jump_callback (c_obj cell) th (next_handler w)
    = (RCL_RET_OK, obj1) ->
  rcl_clock_remove_jump_callback obj1 (next_handler w) = (r2, obj2) ->
  bind (Clock_create_jump_callback c pre post th) shared_handler_release w =
    (Returned tt,
     add_events
       ([EvNewHandler (next_handler w);
         EvAddJumpCallback (rcl_clock_ c) th (next_handler w) RCL_RET_OK;
         EvRemoveJumpCallback (rcl_clock_ c) (next_handler w) r2]
        ++ (if decide (RCL_RET_OK = r2) then []
            else [EvLogError "Failed to remove time jump callback"])
        ++ [EvDeleteHandler (next_handler w)])
       (set_next_handler (Pos.succ (next_handler w))
          (set_clocks
             (insert (rcl_clock_ c)
                {| c_strong := c_strong cell; c_obj := obj2 |}) w))).
Proof.
  intros R Hc E1 E2. pose proof (reachable_Inv _ R) as I.
  pose proof (alive_false _ _ (Inv_fresh_handler _ I)) as Fh.
  erewrite bind_Returned.
  2:{ eapply Clock_create_jump_callback_ok; [exact Hc|exact E1|reflexivity]. }
  erewrite shared_handler_release_last by lookup_tac.
  erewrite jump_handler_deleter_alive; [ | lookup_tac | lookup_tac | exact E2 ].
  f_equal. unfold remove_log. apply World_eq; wsimpl;
    rewrite <- ?List.app_assoc; cbn [List.app];
    rewrite ?delete_insert_eq, ?insert_insert_eq; try reflexivity.
  apply delete_id, Fh.
Qed.

(** X7.  A token that outlives its clock.  A callback is registered on a
    clock held by one Clock, the Clock is destroyed, then the token: the
    clock is finalised and deleted when the Clock goes, the token does not
    keep it alive, and destroying the token afterwards calls no rcl function
    (rcl_clock_remove_jump_callback is never called), deletes the handler
    and returns normally. *)
Theorem token_outlives_clock c w pre post th cell obj1 r2 obj2 :
  reachable w ->
  clocks w !! rcl_clock_ c = Some cell ->
  c_strong cell = 1%positive ->
  rcl_clock_add_jump_callback (c_obj cell) th (next_handler w)
    = (RCL_RET_OK, obj1) ->
  rcl_clock_fini obj1 = (r2, obj2) ->
  bind (Clock_create_jump_callback c pre post th)
    (fun token => bind (Clock_dtor c) (fun _ => shared_handler_release token)) w =
    (Returned tt,
     add_events
       ([EvNewHandler (next_handler w);
         EvAddJumpCallback (rcl_clock_ c) th (next_handler w) RCL_RET_OK;
         EvClockFini (rcl_clock_ c) r2]
        ++ (if decide (r2 = RCL_RET_OK) then []
            else [EvLogError "Failed to fini rcl clock."])
        ++ [EvDeleteClock (rcl_clock_ c); EvDeleteHandler (next_handler w)])
       (set_next_handler (Pos.succ (next_handler w))
          (set_clocks (delete (rcl_clock_ c)) w))).
Proof.
  intros R Hc H1 E1 E2. pose proof (reachable_Inv _ R) as I.
  pose proof (alive_false _ _ (Inv_fresh_handler _ I)) as Fh.
  erewrite bind_Returned.
  2:{ eapply Clock_create_jump_callback_ok; [exact Hc|exact E1|reflexivity]. }
  erewrite bind_Returned.
  2:{ unfold Clock_dtor.
      eapply shared_clock_release_last; [lookup_tac | exact H1 | exact E2]. }
  erewrite shared_handler_release_last by lookup_tac.
  erewrite jump_handler_deleter_expired;
    [ | lookup_tac | wsimpl; apply lookup_delete_eq ].
  f_equal. unfold fini_log. apply World_eq; wsimpl;
    repeat (rewrite <- ?List.app_assoc; cbn [List.app]);
    rewrite ?delete_insert_eq, ?insert_insert_eq; try reflexivity.
  apply delete_id, Fh.
Qed.

(** X8.  In every world of a run, a JumpHandler that is alive has not been
    deleted and its callback has not been removed from rcl; one that has
    been allocated and is gone, by a failed registration or by the
    destruction of its last token, has been deleted exactly once and its
    callback removed at most once; one that is still to be allocated has
    been neither.  No JumpHandler is deleted twice and none is lost. *)
Theorem handlers_deleted_once w :
  reachable w ->
  forall h,
    (alive (handlers w) h = true ->
     count (is_delete_handler h) (trace w) = 0%nat /\
     count (is_remove h) (trace w) = 0%nat) /\
    (alive (handlers w) h = false -> (h < next_handler w)%positive ->
     count (is_delete_handler h) (trace w) = 1%nat /\
     (count (is_remove h) (trace w) <= 1)%nat) /\
    ((next_handler w <= h)%positive ->
     alive (handlers w) h = false /\
     count (is_delete_handler h) (trace w) = 0%nat /\
     count (is_remove h) (trace w) = 0%nat).
Proof.
  intros R h. pose proof (reachable_Inv _ R) as I.
  pose proof (inv_handlers _ I h) as H1.
  pose proof (inv_delete_handler _ I h) as H2.
  pose proof (inv_remove _ I h) as H3.
  unfold once, allocated in *. rewrite H2 in *.
  split; [|split].
  - intros Ha. rewrite Ha in *. split; [reflexivity | lia].
  - intros Ha Hlt. rewrite Ha in *.
    rewrite bool_decide_eq_true_2 in * by assumption. split; [reflexivity | lia].
  - intros Hle. destruct (alive (handlers w) h).
    + specialize (H1 eq_refl). lia.
    + rewrite bool_decide_eq_false_2 in * by lia.
      split; [reflexivity|]. split; [reflexivity | lia].
Qed.

(** X9.  The callbacks given to Clock::create_jump_callback are the ones
    that Clock::on_time_jump calls for the returned token: before a jump the
    pre-jump callback, after a jump the post-jump callback on the jump
    description, each on the state of the user; a callback that was given
    empty is not called. *)
Theorem registered_callbacks_are_dispatched c w pre post th token w' :
  Clock_create_jump_callback c pre post th w = (Returned token, w') ->
  (forall time_jump,
     Clock_on_time_jump time_jump true (Some token) w' =
       match pre with
       | Some f =>
           (Returned tt, add_events [EvPreCallback token] (set_user f w'))
       | None => (Returned tt, w')
       end) /\
  (forall j,
     Clock_on_time_jump (Some j) false (Some token) w' =
       match post with
       | Some g =>
           (Returned tt,
            add_events [EvPostCallback token j] (set_user (g j) w'))
       | None => (Returned tt, w')
       end).
Proof.
  intros E.
  assert (Hh : handlers w' !! token =
               Some {| h_obj := JumpHandler_ctor pre post th;
                       h_owner := Shared 1 (rcl_clock_ c) |}).
  { destruct (clocks w !! rcl_clock_ c) as [cell|] eqn:Hc.
    - destruct (rcl_clock_add_jump_callback (c_obj cell) th (next_handler w))
        as [r1 obj'] eqn:E1.
      destruct (decide (r1 = RCL_RET_OK)) as [H1|H1].
      + rewrite (Clock_create_jump_callback_ok _ _ pre post _ _ _ _ Hc E1 H1) in E.
        apply pair_equal_spec in E. destruct E as [Et <-].
        injection Et as <-. wsimpl. apply lookup_insert_eq.
      + rewrite (Clock_create_jump_callback_fail _ _ pre post _ _ _ _ Hc E1 H1) in E.
        congruence.
    - destruct (Clock_create_jump_callback_dangling c w pre post th Hc)
        as [w1 [E1 _]].
      congruence. }
  split.
  - intros tj. rewrite (Clock_on_time_jump_before _ tj _ _ Hh). reflexivity.
  - intros j. rewrite (Clock_on_time_jump_after _ j _ _ Hh). reflexivity.
Qed.

(** X10.  Clock::Clock when rcl_clock_init fails: rcl_clock_fini is still
    called, once, on the clock that failed to initialise; a failure of it is
    logged; the exception carries the status of rcl_clock_init, not that of
    rcl_clock_fini; the identifier of the clock is used up. *)
Theorem Clock_ctor_failure_finalises w ty r obj' r2 obj'' :
  rcl_clock_init ty rcl_clock_zero rcl_get_default_allocator = (r, obj') ->
  r <> RCL_RET_OK ->
  rcl_clock_fini obj' = (r2, obj'') ->
  Clock_ctor ty w =
    (Thrown (RCLError r "could not get current time stamp"),
     add_events
       ([EvNewClock (next_clock w); EvClockInit (next_clock w) ty r;
         EvClockFini (next_clock w) r2]
        ++ (if decide (r2 = RCL_RET_OK) then []
            else [EvLogError "Failed to fini rcl clock."])
        ++ [EvDeleteClock (next_clock w)])
       (set_next_clock (Pos.succ (next_clock w))
          (set_clocks (delete (next_clock w)) w))).
Proof. intros E Hr E2. eapply Clock_ctor_fail; eassumption. Qed.

End Properties.

(** ** The theorems at concrete inputs *)

#[local] Existing Instance Sim.types.
#[local] Existing Instance Sim.backend.

Lemma reachable_world ops :
  run_defined ops (init_world Sim.u0) = true -> reachable (Sim.world ops).
Proof. intros D. apply reachable_run; [apply reachable_init | exact D]. Qed.

Lemma on_time_jump_dispatch_witness :
  handlers (Sim.world Sim.ops_handler) !! 1%positive = Some Sim.the_cell /\
  (forall before_jump,
     Clock_on_time_jump (Some Sim.jump5) before_jump None
       (Sim.world Sim.ops_handler)
     = (Returned tt, Sim.world Sim.ops_handler)) /\
  Clock_on_time_jump (Some Sim.jump5) true (Some 1%positive)
    (Sim.world Sim.ops_handler)
  = (Returned tt,
     add_events [EvPreCallback 1%positive]
       (set_user Sim.on_pre (Sim.world Sim.ops_handler))) /\
  Clock_on_time_jump (Some Sim.jump5) false (Some 1%positive)
    (Sim.world Sim.ops_handler)
  = (Returned tt,
     add_events [EvPostCallback 1%positive Sim.jump5]
       (set_user (Sim.on_post Sim.jump5) (Sim.world Sim.ops_handler))).
Proof.
  assert (H : handlers (Sim.world Sim.ops_handler) !! 1%positive
              = Some Sim.the_cell) by (vm_compute; reflexivity).
  split; [exact H|].
  exact (on_time_jump_dispatch (Sim.world Sim.ops_handler) (Some Sim.jump5)
           Sim.jump5 1%positive Sim.the_cell H).
Defined.

Lemma token_release_deregisters_witness :
  reachable (Sim.world Sim.ops_handler) /\
  handlers (Sim.world Sim.ops_handler) !! 1%positive = Some Sim.the_cell /\
  shared_handler_release 1%positive (Sim.world Sim.ops_handler) =
    (Returned tt,
     add_events
       [EvRemoveJumpCallback 1%positive 1%positive Sim.RET_OK;
        EvDeleteHandler 1%positive]
       (set_clocks
          (insert 1%positive {| c_strong := 1; c_obj := Sim.ros_clock |})
          (set_handlers (delete 1%positive) (Sim.world Sim.ops_handler)))) /\
  count (is_remove 1%positive) (trace (Sim.world Sim.ops_handler)) = 0%nat /\
  (count (is_remove 1%positive)
     (trace (snd (shared_handler_release 1%positive
                    (Sim.world Sim.ops_handler)))) <= 1)%nat.
Proof.
  assert (R : reachable (Sim.world Sim.ops_handler))
    by (apply reachable_world; vm_compute; reflexivity).
  assert (H : handlers (Sim.world Sim.ops_handler) !! 1%positive
              = Some Sim.the_cell) by (vm_compute; reflexivity).
  assert (Hc : clocks (Sim.world Sim.ops_handler) !! 1%positive
               = Some {| c_strong := 1; c_obj := Sim.armed_clock |})
    by (vm_compute; reflexivity).
  assert (E : rcl_clock_remove_jump_callback Sim.armed_clock 1%positive
              = (Sim.RET_OK, Sim.ros_clock)) by (vm_compute; reflexivity).
  pose proof (token_release_deregisters (Sim.world Sim.ops_handler) 1%positive
                Sim.the_handler 1%positive 1%positive R H) as T.
  destruct T as (_ & _ & T3 & T4 & T5).
  split; [exact R|]. split; [exact H|].
  split; [exact (T3 eq_refl _ _ _ Hc E)|].
  split; [exact T4 | exact T5].
Defined.

Lemma create_jump_callback_atomic_witness :
  reachable (Sim.world Sim.ops_armed) /\
  clocks (Sim.world Sim.ops_armed) !! 1%positive
    = Some {| c_strong := 1; c_obj := Sim.armed_clock |} /\
  rcl_clock_add_jump_callback Sim.armed_clock Sim.threshold
    (next_handler (Sim.world Sim.ops_armed))
    = (Sim.RET_ERROR, Sim.armed_clock) /\
  exists w',
    Clock_create_jump_callback Sim.the_clock (Some Sim.on_pre)
      (Some Sim.on_post) Sim.threshold (Sim.world Sim.ops_armed)
    = (Thrown (RCLError Sim.RET_ERROR "Failed to add time jump callback"), w') /\
    trace w' =
      trace (Sim.world Sim.ops_armed)
      ++ [EvNewHandler 1%positive;
          EvAddJumpCallback 1%positive Sim.threshold 1%positive Sim.RET_ERROR;
          EvDeleteHandler 1%positive] /\
    handlers w' = handlers (Sim.world Sim.ops_armed) /\
    clocks w' = clocks (Sim.world Sim.ops_armed).
Proof.
  assert (R : reachable (Sim.world Sim.ops_armed))
    by (apply reachable_world; vm_compute; reflexivity).
  assert (Hc : clocks (Sim.world Sim.ops_armed) !! 1%positive
               = Some {| c_strong := 1; c_obj := Sim.armed_clock |})
    by (vm_compute; reflexivity).
  assert (E : rcl_clock_add_jump_callback Sim.armed_clock Sim.threshold
                (next_handler (Sim.world Sim.ops_armed))
              = (Sim.RET_ERROR, Sim.armed_clock)) by (vm_compute; reflexivity).
  assert (Hr : Sim.RET_ERROR <> RCL_RET_OK) by (vm_compute; discriminate).
  pose proof (create_jump_callback_atomic Sim.the_clock
                (Sim.world Sim.ops_armed) (Some Sim.on_pre) (Some Sim.on_post)
                Sim.threshold _ _ _ R Hc E) as T.
  destruct T as [T1 _]. destruct (T1 Hr) as (w' & A & B & C & _ & F).
  split; [exact R|]. split; [exact Hc|]. split; [exact E|].
  exists w'. split; [exact A|]. split; [exact B|]. split; [exact C|].
  exact (F eq_refl).
Defined.

Lemma handler_holds_weak_reference_witness :
  c_strong <$>
    clocks (snd (Clock_create_jump_callback Sim.the_clock (Some Sim.on_pre)
                   (Some Sim.on_post) Sim.threshold (Sim.world Sim.ops_clock)))
  = c_strong <$> clocks (Sim.world Sim.ops_clock) /\
  c_strong <$>
    clocks (snd (shared_handler_release 1%positive (Sim.world Sim.ops_handler)))
  = c_strong <$> clocks (Sim.world Sim.ops_handler) /\
  exists w',
    Clock_dtor Sim.the_clock (Sim.world Sim.ops_handler) = (Returned tt, w') /\
    clocks w' !! 1%positive = None /\
    handlers w' = handlers (Sim.world Sim.ops_handler).
Proof.
  assert (Hc : clocks (Sim.world Sim.ops_handler) !! 1%positive
               = Some {| c_strong := 1; c_obj := Sim.armed_clock |})
    by (vm_compute; reflexivity).
  pose proof (handler_holds_weak_reference (Sim.world Sim.ops_clock)) as T.
  destruct T as (T1 & _).
  pose proof (handler_holds_weak_reference (Sim.world Sim.ops_handler)) as T'.
  destruct T' as (_ & _ & _ & T4 & _ & T6).
  split; [exact (T1 _ _ _ _ _ _ (surjective_pairing _))|].
  split; [exact (T4 _ _ _ (surjective_pairing _))|].
  exact (T6 Sim.the_clock _ Hc eq_refl).
Defined.

Lemma Clock_ctor_atomic_witness :
  reachable (Sim.world Sim.ops_clock) /\
  rcl_clock_init Sim.UNINITIALIZED rcl_clock_zero rcl_get_default_allocator
    = (Sim.RET_INVALID_ARGUMENT, Sim.zero) /\
  rcl_clock_init Sim.STEADY_TIME rcl_clock_zero rcl_get_default_allocator
    = (Sim.RET_OK, {| type := Sim.STEADY_TIME; impl := impl Sim.zero |}) /\
  (exists w',
     Clock_ctor Sim.UNINITIALIZED (Sim.world Sim.ops_clock)
     = (Thrown (RCLError Sim.RET_INVALID_ARGUMENT
                  "could not get current time stamp"), w') /\
     clocks w' = clocks (Sim.world Sim.ops_clock) /\
     handlers w' = handlers (Sim.world Sim.ops_clock) /\
     count (is_fini 2%positive) (trace w') = 1%nat /\
     count (is_delete_clock 2%positive) (trace w') = 1%nat) /\
  (exists c w',
     Clock_ctor Sim.STEADY_TIME (Sim.world Sim.ops_clock) = (Returned c, w') /\
     clocks (Sim.world Sim.ops_clock) !! rcl_clock_ c = None /\
     clocks w' =
       <[rcl_clock_ c:={| c_strong := 1;
                          c_obj := {| type := Sim.STEADY_TIME;
                                      impl := impl Sim.zero |} |}]>
         (clocks (Sim.world Sim.ops_clock)) /\
     handlers w' = handlers (Sim.world Sim.ops_clock) /\
     Clock_get_clock_type c w' = (Returned Sim.STEADY_TIME, w')).
Proof.
  assert (R : reachable (Sim.world Sim.ops_clock))
    by (apply reachable_world; vm_compute; reflexivity).
  assert (E1 : rcl_clock_init Sim.UNINITIALIZED rcl_clock_zero
                 rcl_get_default_allocator
               = (Sim.RET_INVALID_ARGUMENT, Sim.zero)) by reflexivity.
  assert (E2 : rcl_clock_init Sim.STEADY_TIME rcl_clock_zero
                 rcl_get_default_allocator
               = (Sim.RET_OK, {| type := Sim.STEADY_TIME; impl := impl Sim.zero |}))
    by reflexivity.
  assert (Hr : Sim.RET_INVALID_ARGUMENT <> RCL_RET_OK)
    by (vm_compute; discriminate).
  split; [exact R|]. split; [exact E1|]. split; [exact E2|]. split.
  - exact (proj2 (Clock_ctor_atomic (Sim.world Sim.ops_clock) Sim.UNINITIALIZED
                    _ _ R E1) Hr).
  - exact (proj1 (Clock_ctor_atomic (Sim.world Sim.ops_clock) Sim.STEADY_TIME
                    _ _ R E2) eq_refl).
Defined.

Lemma Clock_now_result_witness :
  clocks (Sim.world Sim.ops_clock) !! 1%positive
    = Some {| c_strong := 1; c_obj := Sim.ros_clock |} /\
  rcl_clock_get_now Sim.ros_clock 0 = (Sim.RET_OK, 0, Sim.ticked_clock) /\
  Clock_get_clock_type Sim.the_clock (Sim.world Sim.ops_clock)
    = (Returned Sim.ROS_TIME, Sim.world Sim.ops_clock) /\
  Clock_now Sim.the_clock (Sim.world Sim.ops_clock) =
    (Returned {| rcl_time_ := {| nanoseconds := 0;
                                 clock_type := Sim.ROS_TIME |} |},
     add_events [EvClockGetNow 1%positive Sim.RET_OK]
       (set_clocks
          (insert 1%positive {| c_strong := 1; c_obj := Sim.ticked_clock |})
          (Sim.world Sim.ops_clock))).
Proof.
  assert (Hc : clocks (Sim.world Sim.ops_clock) !! 1%positive
               = Some {| c_strong := 1; c_obj := Sim.ros_clock |})
    by (vm_compute; reflexivity).
  assert (E : rcl_clock_get_now Sim.ros_clock 0
              = (Sim.RET_OK, 0, Sim.ticked_clock)) by reflexivity.
  pose proof (Clock_now_result Sim.the_clock (Sim.world Sim.ops_clock)
                _ _ _ _ Hc E) as T.
  destruct T as (T1 & T2 & _).
  split; [exact Hc|]. split; [exact E|]. split; [exact T1|].
  exact (T2 eq_refl).
Defined.

Lemma invalid_clock_reports_inactive_witness :
  clocks (Sim.world Sim.ops_invalid) !! 1%positive
    = Some {| c_strong := 1; c_obj := Sim.zero |} /\
  rcl_clock_valid Sim.zero = false /\
  Clock_ros_time_is_active Sim.the_clock (Sim.world Sim.ops_invalid) =
    (Returned false,
     add_events [EvClockValid 1%positive false;
                 EvLogError "ROS time not valid!"]
       (Sim.world Sim.ops_invalid)).
Proof.
  assert (Hc : clocks (Sim.world Sim.ops_invalid) !! 1%positive
               = Some {| c_strong := 1; c_obj := Sim.zero |})
    by (vm_compute; reflexivity).
  assert (Hv : rcl_clock_valid Sim.zero = false) by reflexivity.
  split; [exact Hc|]. split; [exact Hv|].
  exact (invalid_clock_reports_inactive Sim.the_clock (Sim.world Sim.ops_invalid)
           _ Hc Hv).
Defined.

Lemma backend_finalized_once_witness :
  reachable (Sim.world Sim.ops_history) /\
  reachable (Sim.world Sim.ops_last) /\
  (count (is_fini 1%positive) (trace (Sim.world Sim.ops_history)) = 1%nat /\
   count (is_delete_clock 1%positive) (trace (Sim.world Sim.ops_history)) = 1%nat) /\
  (count (is_fini 2%positive) (trace (Sim.world Sim.ops_history)) = 1%nat /\
   count (is_delete_clock 2%positive) (trace (Sim.world Sim.ops_history)) = 1%nat) /\
  (count (is_fini 1%positive) (trace (Sim.world Sim.ops_last)) = 0%nat /\
   count (is_delete_clock 1%positive) (trace (Sim.world Sim.ops_last)) = 0%nat) /\
  (c_strong {| c_strong := 1; c_obj := Sim.ros_clock |} = 1%positive /\
   exists c, OpClockDtor Sim.the_clock = OpClockDtor (U:=Sim.counters) c /\
             rcl_clock_ c = 1%positive).
Proof.
  assert (R : reachable (Sim.world Sim.ops_history))
    by (apply reachable_world; vm_compute; reflexivity).
  assert (R' : reachable (Sim.world Sim.ops_last))
    by (apply reachable_world; vm_compute; reflexivity).
  pose proof (backend_finalized_once (Sim.world Sim.ops_history) R) as T.
  pose proof (backend_finalized_once (Sim.world Sim.ops_last) R') as T'.
  destruct T as [T _]. destruct T' as [T1' T2'].
  split; [exact R|]. split; [exact R'|].
  destruct (T 1%positive) as (_ & Ta & _).
  destruct (T 2%positive) as (_ & Tb & _).
  destruct (T1' 1%positive) as (Tc & _).
  split; [apply Ta; vm_compute; reflexivity|].
  split; [apply Tb; vm_compute; reflexivity|].
  split; [apply Tc; vm_compute; reflexivity|].
  apply (T2' (OpClockDtor Sim.the_clock) (Returned tt)
           (snd (exec (OpClockDtor Sim.the_clock) (Sim.world Sim.ops_last)))
           1%positive {| c_strong := 1; c_obj := Sim.ros_clock |}).
  - vm_compute; reflexivity.
  - discriminate.
  - vm_compute; reflexivity.
  - vm_compute; reflexivity.
Defined.

Lemma get_clock_type_pure_witness :
  clocks (Sim.world Sim.ops_clock) !! 1%positive
    = Some {| c_strong := 1; c_obj := Sim.ros_clock |} /\
  Clock_get_clock_type Sim.the_clock (Sim.world Sim.ops_clock)
    = (Returned Sim.ROS_TIME, Sim.world Sim.ops_clock).
Proof.
  assert (Hc : clocks (Sim.world Sim.ops_clock) !! 1%positive
               = Some {| c_strong := 1; c_obj := Sim.ros_clock |})
    by (vm_compute; reflexivity).
  split; [exact Hc|].
  exact (get_clock_type_pure Sim.the_clock (Sim.world Sim.ops_clock) _ Hc).
Defined.

Lemma token_release_frees_handler_witness :
  reachable (Sim.world Sim.ops_orphan) /\
  handlers (Sim.world Sim.ops_orphan) !! 1%positive = Some Sim.the_cell /\
  clocks (Sim.world Sim.ops_orphan) !! 1%positive = None /\
  exists w' evs,
    shared_handler_release 1%positive (Sim.world Sim.ops_orphan)
    = (Returned tt, w') /\
    handlers w' = delete 1%positive (handlers (Sim.world Sim.ops_orphan)) /\
    trace w' = trace (Sim.world Sim.ops_orphan) ++ evs /\
    count (is_delete_handler 1%positive) evs = 1%nat /\
    count (is_delete_handler 1%positive) (trace (Sim.world Sim.ops_orphan))
      = 0%nat /\
    count (is_delete_handler 1%positive) (trace w') = 1%nat.
Proof.
  assert (R : reachable (Sim.world Sim.ops_orphan))
    by (apply reachable_world; vm_compute; reflexivity).
  assert (H : handlers (Sim.world Sim.ops_orphan) !! 1%positive
              = Some Sim.the_cell) by (vm_compute; reflexivity).
  split; [exact R|]. split; [exact H|].
  split; [vm_compute; reflexivity|].
  exact (token_release_frees_handler (Sim.world Sim.ops_orphan) 1%positive
           Sim.the_handler 1%positive R H).
Defined.

(** ** The further properties at concrete inputs *)

Lemma ros_time_is_active_on_valid_clock_witness :
  (clocks (Sim.world Sim.ops_system) !! 1%positive
     = Some {| c_strong := 1; c_obj := Sim.system_clock |} /\
   rcl_clock_valid Sim.system_clock = true /\
   rcl_is_enabled_ros_time_override Sim.system_clock false
     = (Sim.RET_ERROR, false, Sim.system_clock)) /\
  Clock_ros_time_is_active Sim.the_clock (Sim.world Sim.ops_system) =
    (Thrown (RCLError Sim.RET_ERROR "Failed to check ros_time_override_status"),
     add_events [EvClockValid 1%positive true;
                 EvIsEnabledRosTimeOverride 1%positive Sim.RET_ERROR]
       (set_clocks
          (insert 1%positive {| c_strong := 1; c_obj := Sim.system_clock |})
          (Sim.world Sim.ops_system))).
Proof.
  assert (Hc : clocks (Sim.world Sim.ops_system) !! 1%positive
               = Some {| c_strong := 1; c_obj := Sim.system_clock |})
    by (vm_compute; reflexivity).
  assert (Hv : rcl_clock_valid Sim.system_clock = true) by reflexivity.
  assert (E : rcl_is_enabled_ros_time_override Sim.system_clock false
              = (Sim.RET_ERROR, false, Sim.system_clock)) by reflexivity.
  assert (Hr : Sim.RET_ERROR <> RCL_RET_OK) by (vm_compute; discriminate).
  split; [split; [exact Hc | split; [exact Hv | exact E]]|].
  exact (proj2 (ros_time_is_active_on_valid_clock Sim.the_clock
                  (Sim.world Sim.ops_system) _ _ _ _ Hc Hv E) Hr).
Defined.

Lemma rcl_clock_deleter_always_deletes_witness :
  (clocks (Sim.world Sim.ops_invalid) !! 1%positive
     = Some {| c_strong := 1; c_obj := Sim.zero |} /\
   rcl_clock_fini Sim.zero = (Sim.RET_INVALID_ARGUMENT, Sim.zero)) /\
  rcl_clock_deleter 1%positive (Sim.world Sim.ops_invalid) =
    (Returned tt,
     add_events
       [EvClockFini 1%positive Sim.RET_INVALID_ARGUMENT;
        EvLogError "Failed to fini rcl clock.";
        EvDeleteClock 1%positive]
       (set_clocks (delete 1%positive) (Sim.world Sim.ops_invalid))).
Proof.
  assert (Hc : clocks (Sim.world Sim.ops_invalid) !! 1%positive
               = Some {| c_strong := 1; c_obj := Sim.zero |})
    by (vm_compute; reflexivity).
  assert (E : rcl_clock_fini Sim.zero = (Sim.RET_INVALID_ARGUMENT, Sim.zero))
    by reflexivity.
  split; [split; [exact Hc | exact E]|].
  exact (rcl_clock_deleter_always_deletes (Sim.world Sim.ops_invalid)
           1%positive _ _ _ Hc E).
Defined.

Lemma Clock_copy_then_destroy_witness :
  clocks (Sim.world Sim.ops_handler) !! 1%positive
    = Some {| c_strong := 1; c_obj := Sim.armed_clock |} /\
  bind (Clock_copy Sim.the_clock) Clock_dtor (Sim.world Sim.ops_handler)
    = (Returned tt, Sim.world Sim.ops_handler).
Proof.
  assert (Hc : clocks (Sim.world Sim.ops_handler) !! 1%positive
               = Some {| c_strong := 1; c_obj := Sim.armed_clock |})
    by (vm_compute; reflexivity).
  split; [exact Hc|].
  exact (Clock_copy_then_destroy Sim.the_clock (Sim.world Sim.ops_handler) _ Hc).
Defined.

Lemma Clock_now_keeps_clock_usable_witness :
  clocks (Sim.world Sim.ops_invalid) !! 1%positive
    = Some {| c_strong := 1; c_obj := Sim.zero |} /\
  fst (Clock_now Sim.the_clock (Sim.world Sim.ops_invalid))
    = Thrown (RCLError Sim.RET_ERROR "could not get current time stamp") /\
  fst (Clock_now Sim.the_clock (Sim.world Sim.ops_invalid)) <> Undefined /\
  c_strong <$> clocks (snd (Clock_now Sim.the_clock (Sim.world Sim.ops_invalid)))
    = c_strong <$> clocks (Sim.world Sim.ops_invalid) /\
  handlers (snd (Clock_now Sim.the_clock (Sim.world Sim.ops_invalid)))
    = handlers (Sim.world Sim.ops_invalid) /\
  (exists r,
     trace (snd (Clock_now Sim.the_clock (Sim.world Sim.ops_invalid)))
     = trace (Sim.world Sim.ops_invalid) ++ [EvClockGetNow 1%positive r]) /\
  exists ty,
    Clock_get_clock_type Sim.the_clock
      (snd (Clock_now Sim.the_clock (Sim.world Sim.ops_invalid)))
    = (Returned ty, snd (Clock_now Sim.the_clock (Sim.world Sim.ops_invalid))).
Proof.
  assert (Hc : clocks (Sim.world Sim.ops_invalid) !! 1%positive
               = Some {| c_strong := 1; c_obj := Sim.zero |})
    by (vm_compute; reflexivity).
  split; [exact Hc|]. split; [vm_compute; reflexivity|].
  exact (Clock_now_keeps_clock_usable Sim.the_clock (Sim.world Sim.ops_invalid)
           _ Hc).
Defined.

Lemma register_then_release_witness :
  (reachable (Sim.world Sim.ops_clock) /\
   clocks (Sim.world Sim.ops_clock) !! 1%positive
     = Some {| c_strong := 1; c_obj := Sim.ros_clock |} /\
   rcl_clock_add_jump_callback Sim.ros_clock Sim.threshold
     (next_handler (Sim.world Sim.ops_clock)) = (RCL_RET_OK, Sim.armed_clock) /\
   rcl_clock_remove_jump_callback Sim.armed_clock
     (next_handler (Sim.world Sim.ops_clock)) = (Sim.RET_OK, Sim.ros_clock)) /\
  bind (Clock_create_jump_callback Sim.the_clock (Some Sim.on_pre)
          (Some Sim.on_post) Sim.threshold)
    shared_handler_release (Sim.world Sim.ops_clock) =
    (Returned tt,
     add_events
       [EvNewHandler 1%positive;
        EvAddJumpCallback 1%positive Sim.threshold 1%positive Sim.RET_OK;
        EvRemoveJumpCallback 1%positive 1%positive Sim.RET_OK;
        EvDeleteHandler 1%positive]
       (set_next_handler 2%positive
          (set_clocks
             (insert 1%positive {| c_strong := 1; c_obj := Sim.ros_clock |})
             (Sim.world Sim.ops_clock)))).
Proof.
  assert (R : reachable (Sim.world Sim.ops_clock))
    by (apply reachable_world; vm_compute; reflexivity).
  assert (Hc : clocks (Sim.world Sim.ops_clock) !! 1%positive
               = Some {| c_strong := 1; c_obj := Sim.ros_clock |})
    by (vm_compute; reflexivity).
  assert (E1 : rcl_clock_add_jump_callback Sim.ros_clock Sim.threshold
                 (next_handler (Sim.world Sim.ops_clock))
               = (RCL_RET_OK, Sim.armed_clock)) by (vm_compute; reflexivity).
  assert (E2 : rcl_clock_remove_jump_callback Sim.armed_clock
                 (next_handler (Sim.world Sim.ops_clock))
               = (Sim.RET_OK, Sim.ros_clock)) by (vm_compute; reflexivity).
  split; [split; [exact R | split; [exact Hc | split; [exact E1 | exact E2]]]|].
  exact (register_then_release Sim.the_clock (Sim.world Sim.ops_clock)
           (Some Sim.on_pre) (Some Sim.on_post) Sim.threshold _ _ _ _
           R Hc E1 E2).
Defined.

Lemma token_outlives_clock_witness :
  (reachable (Sim.world Sim.ops_clock) /\
   clocks (Sim.world Sim.ops_clock) !! 1%positive
     = Some {| c_strong := 1; c_obj := Sim.ros_clock |} /\
   rcl_clock_add_jump_callback Sim.ros_clock Sim.threshold
     (next_handler (Sim.world Sim.ops_clock)) = (RCL_RET_OK, Sim.armed_clock) /\
   rcl_clock_fini Sim.armed_clock = (Sim.RET_OK, Sim.zero)) /\
  bind (Clock_create_jump_callback Sim.the_clock (Some Sim.on_pre)
          (Some Sim.on_post) Sim.threshold)
    (fun token =>
       bind (Clock_dtor Sim.the_clock)
         (fun _ => shared_handler_release token))
    (Sim.world Sim.ops_clock) =
    (Returned tt,
     add_events
       [EvNewHandler 1%positive;
        EvAddJumpCallback 1%positive Sim.threshold 1%positive Sim.RET_OK;
        EvClockFini 1%positive Sim.RET_OK;
        EvDeleteClock 1%positive; EvDeleteHandler 1%positive]
       (set_next_handler 2%positive
          (set_clocks (delete 1%positive) (Sim.world Sim.ops_clock)))).
Proof.
  assert (R : reachable (Sim.world Sim.ops_clock))
    by (apply reachable_world; vm_compute; reflexivity).
  assert (Hc : clocks (Sim.world Sim.ops_clock) !! 1%positive
               = Some {| c_strong := 1; c_obj := Sim.ros_clock |})
    by (vm_compute; reflexivity).
  assert (E1 : rcl_clock_add_jump_callback Sim.ros_clock Sim.threshold
                 (next_handler (Sim.world Sim.ops_clock))
               = (RCL_RET_OK, Sim.armed_clock)) by (vm_compute; reflexivity).
  assert (E2 : rcl_clock_fini Sim.armed_clock = (Sim.RET_OK, Sim.zero))
    by reflexivity.
  split; [split; [exact R | split; [exact Hc | split; [exact E1 | exact E2]]]|].
  exact (token_outlives_clock Sim.the_clock (Sim.world Sim.ops_clock)
           (Some Sim.on_pre) (Some Sim.on_post) Sim.threshold _ _ _ _
           R Hc eq_refl E1 E2).
Defined.

Lemma handlers_deleted_once_witness :
  reachable (Sim.world Sim.ops_released) /\
  (count (is_delete_handler 1%positive) (trace (Sim.world Sim.ops_released))
     = 1%nat /\
   (count (is_remove 1%positive) (trace (Sim.world Sim.ops_released)) <= 1)%nat) /\
  (count (is_delete_handler 2%positive) (trace (Sim.world Sim.ops_released))
     = 0%nat /\
   count (is_remove 2%positive) (trace (Sim.world Sim.ops_released)) = 0%nat).
Proof.
  assert (R : reachable (Sim.world Sim.ops_released))
    by (apply reachable_world; vm_compute; reflexivity).
  pose proof (handlers_deleted_once (Sim.world Sim.ops_released) R) as T.
  destruct (T 1%positive) as (_ & Ta & _).
  destruct (T 2%positive) as (Tb & _).
  split; [exact R|].
  split; [apply Ta; vm_compute; reflexivity|].
  apply Tb; vm_compute; reflexivity.
Defined.

Lemma registered_callbacks_are_dispatched_witness :
  Clock_create_jump_callback Sim.the_clock (Some Sim.on_pre) None Sim.threshold
    (Sim.world Sim.ops_clock)
  = (Returned 1%positive,
     snd (Clock_create_jump_callback Sim.the_clock (Some Sim.on_pre) None
            Sim.threshold (Sim.world Sim.ops_clock))) /\
  (forall time_jump,
     Clock_on_time_jump time_jump true (Some 1%positive)
       (snd (Clock_create_jump_callback Sim.the_clock (Some Sim.on_pre) None
               Sim.threshold (Sim.world Sim.ops_clock)))
     = (Returned tt,
        add_events [EvPreCallback 1%positive]
          (set_user Sim.on_pre
             (snd (Clock_create_jump_callback Sim.the_clock (Some Sim.on_pre)
                     None Sim.threshold (Sim.world Sim.ops_clock)))))) /\
  (forall j,
     Clock_on_time_jump (Some j) false (Some 1%positive)
       (snd (Clock_create_jump_callback Sim.the_clock (Some Sim.on_pre) None
               Sim.threshold (Sim.world Sim.ops_clock)))
     = (Returned tt,
        snd (Clock_create_jump_callback Sim.the_clock (Some Sim.on_pre) None
               Sim.threshold (Sim.world Sim.ops_clock)))).
Proof.
  assert (E : Clock_create_jump_callback Sim.the_clock (Some Sim.on_pre) None
                Sim.threshold (Sim.world Sim.ops_clock)
              = (Returned 1%positive,
                 snd (Clock_create_jump_callback Sim.the_clock
                        (Some Sim.on_pre) None Sim.threshold
                        (Sim.world Sim.ops_clock))))
    by (vm_compute; reflexivity).
  split; [exact E|].
  exact (registered_callbacks_are_dispatched Sim.the_clock
           (Sim.world Sim.ops_clock) (Some Sim.on_pre) None Sim.threshold
           1%positive _ E).
Defined.

Lemma Clock_ctor_failure_finalises_witness :
  (rcl_clock_init Sim.UNINITIALIZED rcl_clock_zero rcl_get_default_allocator
     = (Sim.RET_INVALID_ARGUMENT, Sim.zero) /\
   rcl_clock_fini Sim.zero = (Sim.RET_INVALID_ARGUMENT, Sim.zero)) /\
  Clock_ctor Sim.UNINITIALIZED (Sim.world Sim.ops_clock) =
    (Thrown (RCLError Sim.RET_INVALID_ARGUMENT
               "could not get current time stamp"),
     add_events
       [EvNewClock 2%positive;
        EvClockInit 2%positive Sim.UNINITIALIZED Sim.RET_INVALID_ARGUMENT;
        EvClockFini 2%positive Sim.RET_INVALID_ARGUMENT;
        EvLogError "Failed to fini rcl clock.";
        EvDeleteClock 2%positive]
       (set_next_clock 3%positive
          (set_clocks (delete 2%positive) (Sim.world Sim.ops_clock)))).
Proof.
  assert (E1 : rcl_clock_init Sim.UNINITIALIZED rcl_clock_zero
                 rcl_get_default_allocator
               = (Sim.RET_INVALID_ARGUMENT, Sim.zero)) by reflexivity.
  assert (E2 : rcl_clock_fini Sim.zero = (Sim.RET_INVALID_ARGUMENT, Sim.zero))
    by reflexivity.
  assert (Hr : Sim.RET_INVALID_ARGUMENT <> RCL_RET_OK)
    by (vm_compute; discriminate).
  split; [split; [exact E1 | exact E2]|].
  exact (Clock_ctor_failure_finalises (Sim.world Sim.ops_clock)
           Sim.UNINITIALIZED _ _ _ _ E1 Hr E2).
Defined.
